(** * seapy: the objective-analysis facade (oa.py) and the observation
      readers (roms/obsgen.py)

    The two Python modules are embedded as programs of a small monad
    that threads the mutable state, raises Python exceptions and
    records every call that leaves the two modules (the compiled
    [seapy.oalib] routines, [convert_file], [to_netcdf], ...) as a
    [Call] node whose reply is supplied by the environment. *)

From Stdlib Require Import ZArith List Ascii String Bool Lia.
From Stdlib Require Import Floats.SpecFloat DecimalString DecimalPos DecimalN.
From stdpp Require Import gmap strings list.

Open Scope string_scope.
Open Scope list_scope.
Open Scope Z_scope.

(** ** Python values, exceptions and programs *)

Module Py.

Inductive exn : Type :=
| NameError (name : string)
| ValueError (msg : string)
| IndexError (msg : string)
| TypeError (msg : string)
| AttributeError (msg : string)
| OverflowError (msg : string)
| Foreign (tag : nat).

(** A float64 array is a typed view on a buffer of the heap: the whole
    buffer, read in the order its layout gives.  Views made by [ravel],
    [reshape], [transpose] and [masked_array(copy=False)] share the
    buffer of their base.  A layout is row-major, column-major, or given
    by the stride of every axis, counted in elements. *)
Abbreviation loc := nat.

Inductive layout : Type :=
| C_order
| F_order
| Strided (strides : list nat).

Record ndarray : Type :=
  mk_ndarray { buf : loc; shape : list nat; order : layout }.

Arguments mk_ndarray buf%_nat_scope shape%_list_scope order.

(** [ma_mask = None] is numpy's [nomask]. *)
Record masked_array : Type :=
  mk_masked { ma_data : ndarray; ma_mask : option (list bool) }.

(** Of an observation structure the modules read only [time]. *)
Record obs : Type := mk_obs { obs_time : list spec_float }.

Inductive pyval : Type :=
| VNone
| VInt (z : Z)
| VFloat (f : spec_float)
| VStr (s : string)
| VPair (a b : pyval)
| VArray (a : ndarray)
| VObs (o : obs)
| VOpaque (tag : string).

Inductive reply : Type :=
| Returned (v : pyval)
| Raised (e : exn).

Section Prog.
Context {E S : Type}.

(** A program either finishes, raises, or calls out with [c] and
    resumes from the reply and the state the callee left. *)
Inductive prog (A : Type) : Type :=
| Done (a : A) (s : S)
| Fail (e : exn) (s : S)
| Call (c : E) (s : S) (k : reply -> S -> prog A).

Global Arguments Done {A} a s.
Global Arguments Fail {A} e s.
Global Arguments Call {A} c s k.

Definition M (A : Type) : Type := S -> prog A.

Definition ret {A} (a : A) : M A := fun s => Done a s.

Definition raise {A} (e : exn) : M A := fun s => Fail e s.

Fixpoint pbind {A B} (p : prog A) (f : A -> M B) : prog B :=
  match p with
  | Done a s => f a s
  | Fail e s => Fail e s
  | Call c s k => Call c s (fun r s' => pbind (k r s') f)
  end.

Definition bind {A B} (m : M A) (f : A -> M B) : M B :=
  fun s => pbind (m s) f.

Definition call (c : E) : M pyval :=
  fun s => Call c s (fun r s' =>
    match r with
    | Returned v => Done v s'
    | Raised e => Fail e s'
    end).

(** [try: p except: h] with a bare [except]. *)
Fixpoint ptry {A} (p : prog A) (h : exn -> M A) : prog A :=
  match p with
  | Done a s => Done a s
  | Fail e s => h e s
  | Call c s k => Call c s (fun r s' => ptry (k r s') h)
  end.

Definition try_except {A} (m : M A) (h : exn -> M A) : M A :=
  fun s => ptry (m s) h.

(** Running a program against one behaviour of the callees. *)
Inductive outcome (A : Type) : Type :=
| Returns (a : A) (s : S)
| Raises (e : exn) (s : S).

Global Arguments Returns {A} a s.
Global Arguments Raises {A} e s.

Fixpoint run {A} (ext : E -> S -> reply * S) (p : prog A) : outcome A :=
  match p with
  | Done a s => Returns a s
  | Fail e s => Raises e s
  | Call c s k => let '(r, s') := ext c s in run ext (k r s')
  end.

(** What is handed to the first callee, and in which state. *)
Definition first_call {A} (p : prog A) : option (E * S) :=
  match p with
  | Call c s _ => Some (c, s)
  | _ => None
  end.


End Prog.

Global Arguments prog : clear implicits.
Global Arguments M : clear implicits.
Global Arguments outcome : clear implicits.

(** Name resolution: local scope, module globals, builtins. *)
Definition builtin_names : list string :=
  [ "abs"; "all"; "any"; "ascii"; "bin"; "bool"; "breakpoint"; "bytearray";
    "bytes"; "callable"; "chr"; "classmethod"; "compile"; "complex";
    "delattr"; "dict"; "dir"; "divmod"; "enumerate"; "eval"; "exec";
    "filter"; "float"; "format"; "frozenset"; "getattr"; "globals";
    "hasattr"; "hash"; "help"; "hex"; "id"; "input"; "int"; "isinstance";
    "issubclass"; "iter"; "len"; "list"; "locals"; "map"; "max";
    "memoryview"; "min"; "next"; "object"; "oct"; "open"; "ord"; "pow";
    "print"; "property"; "range"; "repr"; "reversed"; "round"; "set";
    "setattr"; "slice"; "sorted"; "staticmethod"; "str"; "sum"; "super";
    "tuple"; "type"; "vars"; "zip"; "__import__";
    "None"; "True"; "False"; "Ellipsis"; "NotImplemented"; "__debug__";
    "BaseException"; "Exception"; "ArithmeticError"; "AssertionError";
    "AttributeError"; "EOFError"; "ImportError"; "IndexError"; "KeyError";
    "KeyboardInterrupt"; "LookupError"; "MemoryError"; "NameError";
    "NotImplementedError"; "OSError"; "IOError"; "OverflowError";
    "RuntimeError"; "StopIteration"; "SyntaxError"; "SystemExit";
    "TypeError"; "UnboundLocalError"; "UnicodeError"; "ValueError";
    "Warning"; "UserWarning"; "DeprecationWarning"; "ZeroDivisionError" ].

Fixpoint assoc {A} (n : string) (env : list (string * A)) : option A :=
  match env with
  | [] => None
  | (k, v) :: rest => if String.eqb k n then Some v else assoc n rest
  end.

Definition load_name {E S} (locals globals : list (string * pyval))
    (n : string) : M E S pyval :=
  match assoc n locals with
  | Some v => ret v
  | None =>
      match assoc n globals with
      | Some v => ret v
      | None =>
          if existsb (String.eqb n) builtin_names
          then ret (VOpaque n)
          else raise (NameError n)
      end
  end.

End Py.

Export Py.

Notation "'let*' x := m 'in' k" := (bind m (fun x => k))
  (at level 10, x pattern, m at level 100, k at level 200, only parsing).
Notation "m ;;; k" := (bind m (fun _ => k))
  (at level 100, k at level 200, right associativity, only parsing).

(** ** The part of numpy that oa.py uses *)

Module Np.

Abbreviation heap := (list (list spec_float)).

Definition load (a : ndarray) (h : heap) : list spec_float :=
  default [] (h !! buf a).

Definition store (l : loc) (b : list spec_float) (h : heap) : heap :=
  <[l := b]> h.

Section WithCalls.
Context {E : Type}.
Local Abbreviation M := (M E heap).

Definition alloc (b : list spec_float) : M loc :=
  fun h => Done (List.length h) (h ++ [b]).

Definition read (a : ndarray) : M (list spec_float) :=
  fun h => Done (load a h) h.

Definition write (a : ndarray) (b : list spec_float) : M unit :=
  fun h => Done tt (store (buf a) b h).

(** [a.size] *)
Definition size (a : ndarray) : nat := foldr Nat.mul 1%nat (shape a).

(** [np.isfinite] on one element. *)
Definition isfinite (v : spec_float) : bool :=
  match v with
  | S754_zero _ | S754_finite _ _ _ => true
  | S754_infinity _ | S754_nan => false
  end.

Definition fix_value (fill_value v : spec_float) : spec_float :=
  if isfinite v then v else fill_value.

(** [np.ma.fix_invalid(a, copy=False, fill_value=fill_value)]:
    [masked_array(a, copy=False)] is a view on the buffer of [a];
    when some entry is not finite the mask becomes the invalid
    positions and [a._data[invalid] = fill_value] writes through
    the view. *)
Definition fix_invalid (a : ndarray) (fill_value : spec_float)
    : M masked_array :=
  let* data := read a in
  let invalid := map (fun v => negb (isfinite v)) data in
  if negb (existsb id invalid)
  then ret (mk_masked a None)
  else
    write a (map (fix_value fill_value) data) ;;;
    ret (mk_masked a (Some invalid)).

(** The largest [npy_intp] and the size of a float64 in bytes. *)
Definition max_intp : Z := 9223372036854775807.
Definition itemsize : Z := 8.

(** The checks of the array constructor on the dimensions, in its
    order: a dimension of 0 is passed over, a negative one is refused,
    and so is one that takes the size in bytes beyond [max_intp]. *)
Fixpoint check_dims (nbytes : Z) (dims : list Z) : option exn :=
  match dims with
  | [] => None
  | d :: rest =>
      if d =? 0 then check_dims nbytes rest
      else if d <? 0
      then Some (ValueError "negative dimensions are not allowed")
      else if max_intp <? nbytes * d
      then Some (ValueError "array is too big; `arr.size * arr.dtype.itemsize` is larger than the maximum possible size.")
      else check_dims (nbytes * d) rest
  end.

(** What [np.zeros(dims)] raises on a list of integers, if it raises:
    first every dimension has to fit an [npy_intp], then the constructor
    checks them. *)
Definition zeros_error (dims : list Z) : option exn :=
  if existsb (fun d => (d <? - max_intp - 1) || (max_intp <? d)) dims
  then Some (ValueError "Maximum allowed dimension exceeded")
  else check_dims itemsize dims.

Definition zeros_rejects (dims : list Z) : bool :=
  match zeros_error dims with Some _ => true | None => false end.

(** [np.zeros(dims, order=o)].  Memory is taken to suffice: like every
    allocation here, this one does not raise MemoryError. *)
Definition zeros (dims : list Z) (o : layout) : M ndarray :=
  match zeros_error dims with
  | Some e => raise e
  | None =>
      let shp := map Z.to_nat dims in
      let* l := alloc (replicate (foldr Nat.mul 1%nat shp)
                                 (S754_zero false)) in
      ret (mk_ndarray l shp o)
  end.

(** The elements of a column-major buffer in row-major order. *)
Definition strided (i n count : nat) (b : list spec_float)
    : list spec_float :=
  omap (fun j => b !! (i + n * j)%nat) (seq 0 count).

Fixpoint f_to_c (shp : list nat) (b : list spec_float)
    : list spec_float :=
  match shp with
  | [] => b
  | n :: rest =>
      flat_map
        (fun i => f_to_c rest (strided i n (foldr Nat.mul 1%nat rest) b))
        (seq 0 n)
  end.

(** The elements of a strided array in row-major order, from offset
    [off] of the buffer. *)
Fixpoint gather (shp st : list nat) (off : nat) (b : list spec_float)
    : list spec_float :=
  match shp with
  | [] => match b !! off with Some v => [v] | None => [] end
  | n :: rest =>
      flat_map (fun i => gather rest (tl st) (off + i * hd 0 st)%nat b)
               (seq 0 n)
  end.

(** The strides of the two contiguous layouts, in elements. *)
Fixpoint c_strides (shp : list nat) : list nat :=
  match shp with
  | [] => []
  | _ :: rest => foldr Nat.mul 1%nat rest :: c_strides rest
  end.

Fixpoint f_strides (below : nat) (shp : list nat) : list nat :=
  match shp with
  | [] => []
  | n :: rest => below :: f_strides (below * n) rest
  end.

Definition strides_of (a : ndarray) : list nat :=
  match order a with
  | C_order => c_strides (shape a)
  | F_order => f_strides 1 (shape a)
  | Strided st => st
  end.

(** Whether the strides of the axes longer than 1 are those of the
    row-major layout, and the stride that layout gives the axis in
    front of them.  The axes are walked from the last one. *)
Fixpoint c_match (shp st : list nat) : bool * nat :=
  match shp, st with
  | n :: shp', s :: st' =>
      let '(ok, sd) := c_match shp' st' in
      if (n =? 1)%nat then (ok, sd) else (ok && (s =? sd)%nat, (sd * n)%nat)
  | _, _ => (true, 1%nat)
  end.

(** The flag [C_CONTIGUOUS]: an array without elements has it, and so
    has an array whose axes longer than 1 have the row-major strides;
    for a column-major array that means at most one such axis. *)
Definition c_contiguous (a : ndarray) : bool :=
  match order a with
  | C_order => true
  | F_order =>
      (size a =? 0)%nat ||
      (List.length (filter (fun n => negb (n =? 1)%nat) (shape a)) <=? 1)%nat
  | Strided st => (size a =? 0)%nat || (c_match (shape a) st).1
  end.

(** The elements of an array in row-major order, given its buffer. *)
Definition row_major (a : ndarray) (b : list spec_float) : list spec_float :=
  if c_contiguous a then b
  else
    match order a with
    | Strided st => gather (shape a) st 0 b
    | _ => f_to_c (shape a) b
    end.

(** *** Reshaping without a copy

    numpy walks the axes longer than 1 of the array and the axes of the
    new shape side by side, in groups of equal size.  [grow] completes
    one group: [np] and [op] are the sizes reached on either side, [gn]
    the new extents and [go] the old axes (extent, stride) taken so
    far, the last one first. *)
Fixpoint grow (fuel np op : nat) (gn : list nat) (go : list (nat * nat))
    (ns : list nat) (os : list (nat * nat))
    : option (list nat * list (nat * nat) * list nat * list (nat * nat)) :=
  if (np =? op)%nat then Some (gn, go, ns, os)
  else
    match fuel with
    | O => None
    | S fuel' =>
        if (np <? op)%nat
        then
          match ns with
          | n :: ns' => grow fuel' (np * n)%nat op (n :: gn) go ns' os
          | [] => None
          end
        else
          match os with
          | o :: os' => grow fuel' np (op * o.1)%nat gn (o :: go) ns os'
          | [] => None
          end
    end.

(** The old axes of a group can be read as one row-major axis: each
    stride is the extent times the stride of the axis after it. *)
Fixpoint mergeable (go : list (nat * nat)) : bool :=
  match go with
  | b :: rest =>
      match rest with
      | a :: _ => (a.2 =? b.1 * b.2)%nat && mergeable rest
      | [] => true
      end
  | [] => true
  end.

(** The strides of the new axes of a group: the last takes the stride
    [s] of the last old axis, each one before it the stride times the
    extent of its successor. *)
Fixpoint group_strides (s : nat) (gn acc : list nat) : list nat :=
  match gn with
  | [] => acc
  | n :: gn' => group_strides (s * n)%nat gn' (s :: acc)
  end.

(** The strides of the new shape [ns] over the old axes [os], when the
    buffer can be kept.  New axes that are left when the old ones are
    used up have extent 1 and take the last stride. *)
Fixpoint nocopy (fuel : nat) (ns : list nat) (os : list (nat * nat))
    (last : nat) : option (list nat) :=
  match fuel with
  | O => None
  | S fuel' =>
      match ns, os with
      | n :: ns', o :: os' =>
          match grow (List.length ns' + List.length os') n o.1 [n] [o]
                     ns' os' with
          | Some (gn, go, ns'', os'') =>
              if mergeable go
              then
                let s := (hd o go).2 in
                option_map (app (group_strides s gn []))
                           (nocopy fuel' ns'' os'' s)
              else None
          | None => None
          end
      | _, _ => Some (map (fun _ => last) ns)
      end
  end.

(** The axes longer than 1, each with its stride. *)
Definition old_axes (a : ndarray) : list (nat * nat) :=
  filter (fun p => negb (p.1 =? 1)%nat) (zip (shape a) (strides_of a)).

(** The layout of [a.reshape(shp)] on the buffer of [a], when the
    buffer can be kept: row-major for a row-major array, else what
    [nocopy] finds. *)
Definition reshape_view (a : ndarray) (shp : list nat) : option layout :=
  if c_contiguous a then Some C_order
  else option_map Strided (nocopy (S (List.length shp)) shp (old_axes a) 1).

(** [a.reshape(shp)]: a view when the buffer can be kept, else a
    row-major copy. *)
Definition reshape (a : ndarray) (shp : list nat) : M ndarray :=
  if negb (foldr Nat.mul 1%nat shp =? size a)%nat
  then raise (ValueError "cannot reshape array")
  else
    match reshape_view a shp with
    | Some o => ret (mk_ndarray (buf a) shp o)
    | None =>
        let* data := read a in
        let* l := alloc (row_major a data) in
        ret (mk_ndarray l shp C_order)
    end.

(** [a.ravel()]: a view of a row-major array, else a flat row-major
    copy. *)
Definition ravel (a : ndarray) : M ndarray :=
  if c_contiguous a
  then ret (mk_ndarray (buf a) [size a] C_order)
  else
    let* data := read a in
    let* l := alloc (row_major a data) in
    ret (mk_ndarray l [size a] C_order).

(** [a.shape[0]] *)
Definition shape0 (a : ndarray) : M nat :=
  match shape a with
  | [] => raise (IndexError "tuple index out of range")
  | n :: _ => ret n
  end.

(** [a.reshape(n, -1)]: the second extent is inferred. *)
Definition reshape_infer (a : ndarray) (n : nat) : M ndarray :=
  if (n =? 0)%nat
  then raise (ValueError "cannot reshape array")
  else if negb (size a mod n =? 0)%nat
  then raise (ValueError "cannot reshape array")
  else reshape a [n; (size a / n)%nat].

(** [a.transpose()]: the same buffer read with the axes reversed. *)
Definition transpose (a : ndarray) : ndarray :=
  mk_ndarray (buf a) (rev (shape a))
    match order a with
    | C_order => F_order
    | F_order => C_order
    | Strided st => Strided (rev st)
    end.

(** [vv, err = r] *)
Definition unpack2 (r : pyval) : M (pyval * pyval) :=
  match r with
  | VPair a b => ret (a, b)
  | _ => raise (TypeError "cannot unpack non-iterable object")
  end.

(** Attribute access that only an array offers. *)
Definition as_array (v : pyval) : M ndarray :=
  match v with
  | VArray a => ret a
  | _ => raise (AttributeError "object has no attribute 'reshape'")
  end.

End WithCalls.

(** [a] read with the axes reversed is row-major: the flag
    [F_CONTIGUOUS]. *)
Definition f_contiguous (a : ndarray) : bool := c_contiguous (transpose a).

(** Closed forms of the state and result of [fix_invalid], [ravel] and
    [reshape]. *)
Definition fix_heap (a : ndarray) (fv : spec_float) (h : heap) : heap :=
  store (buf a) (map (fix_value fv) (load a h)) h.

Definition fix_mask (a : ndarray) (h : heap) : option (list bool) :=
  let invalid := map (fun v => negb (isfinite v)) (load a h) in
  if negb (existsb id invalid) then None else Some invalid.

Definition ravel_heap (a : ndarray) (h : heap) : heap :=
  if c_contiguous a then h else h ++ [row_major a (load a h)].

Definition ravel_arr (a : ndarray) (h : heap) : ndarray :=
  mk_ndarray (if c_contiguous a then buf a else List.length h) [size a]
             C_order.

Definition reshape_heap (a : ndarray) (shp : list nat) (h : heap) : heap :=
  match reshape_view a shp with
  | Some _ => h
  | None => h ++ [row_major a (load a h)]
  end.

Definition reshape_arr (a : ndarray) (shp : list nat) (h : heap) : ndarray :=
  match reshape_view a shp with
  | Some o => mk_ndarray (buf a) shp o
  | None => mk_ndarray (List.length h) shp C_order
  end.

End Np.

(** ** oa.py *)

Module Oa.
Import Np.

(** The calls that leave oa.py: the two routines of the compiled
    [seapy.oalib], and the call of whatever object a name of the module
    is bound to (with a shape as argument). *)
Inductive oalib_call : Type :=
| oa2d (x y d xx yy : ndarray) (nx ny : Z) (pmap : ndarray)
| oa3d (x y z v xx yy zz : ndarray) (nx ny : Z) (pmap : ndarray)
| call_object (f : pyval) (arg : list nat).

Local Abbreviation M := (M oalib_call heap).

(** Names bound at module level by the import statements and the two
    function definitions. *)
Definition module_globals : list (string * pyval) :=
  [ ("print_function", VOpaque "__future__.print_function");
    ("np", VOpaque "module numpy");
    ("seapy", VOpaque "module seapy");
    ("oasurf", VOpaque "function oasurf");
    ("oavol", VOpaque "function oavol") ].

Definition opt_array (p : option ndarray) : pyval :=
  match p with Some a => VArray a | None => VNone end.

(** [fill_value=-999999.0] as a binary64 number. *)
Definition fill_value : spec_float :=
  Eval cbv in binary_normalize 53 1024 (-999999) 0 false.

Definition oasurf (x y d xx yy : ndarray) (pmap : option ndarray)
    (weight nx ny : Z) : M (masked_array * ndarray) :=
  (* Do some error checking *)
  let nx := if nx =? 0 then ny else nx in
  let ny := if ny =? 0 then nx else ny in
  let* d := fix_invalid d fill_value in
  (* Generate a mapping weight matrix if not passed *)
  let* pmap :=
    match pmap with
    | None => zeros [Z.of_nat (size xx); weight] F_order
    | Some p => ret p
    end in
  (* Call FORTRAN library to objectively map *)
  let* x1 := ravel x in
  let* y1 := ravel y in
  let* d1 := ravel (ma_data d) in
  let* xx1 := ravel xx in
  let* yy1 := ravel yy in
  let* r := call (oa2d x1 y1 d1 xx1 yy1 nx ny pmap) in
  let* (vv, err) := unpack2 r in
  (* Reshape the results and return *)
  let* vv := as_array vv in
  let* vv := reshape vv (shape xx) in
  let* est := fix_invalid vv fill_value in
  ret (est, pmap).

Definition oavol (x y z v xx yy zz : ndarray) (pmap : option ndarray)
    (weight nx ny : Z) : M (masked_array * ndarray) :=
  let locals : list (string * pyval) :=
    [ ("x", VArray x); ("y", VArray y); ("z", VArray z); ("v", VArray v);
      ("xx", VArray xx); ("yy", VArray yy); ("zz", VArray zz);
      ("pmap", opt_array pmap); ("weight", VInt weight);
      ("nx", VInt nx); ("ny", VInt ny) ] in
  (* Do some error checking *)
  let nx := if nx =? 0 then ny else nx in
  let ny := if ny =? 0 then nx else ny in
  let* z := fix_invalid z fill_value in
  (* Generate a mapping weight matrix if not passed *)
  let* pmap :=
    match pmap with
    | None =>
        let* pmap := zeros [Z.of_nat (size xx); weight] F_order in
        (* Build the map *)
        let* x1 := ravel x in
        let* y1 := ravel y in
        let* ones := load_name locals module_globals "ones" in
        let* o := call (call_object ones (shape x)) in
        let* o := as_array o in
        let* xx1 := ravel xx in
        let* yy1 := ravel yy in
        call (oa2d x1 y1 o xx1 yy1 nx ny pmap) ;;;
        ret pmap
    | Some p => ret p
    end in
  (* Call FORTRAN library to objectively map *)
  let* x1 := ravel x in
  let* y1 := ravel y in
  let* nz := shape0 (ma_data z) in
  let* z2 := reshape_infer (ma_data z) nz in
  let* nv := shape0 v in
  let* v2 := reshape_infer v nv in
  let* xx1 := ravel xx in
  let* yy1 := ravel yy in
  let* nzz := shape0 zz in
  let* zz2 := reshape_infer zz nzz in
  let* r := call (oa3d x1 y1 (transpose z2) (transpose v2) xx1 yy1
                       (transpose zz2) nx ny pmap) in
  let* (vv, err) := unpack2 r in
  (* Reshape the results and return *)
  let* vv := as_array vv in
  let* vv := reshape (transpose vv) (shape zz) in
  let* est := fix_invalid vv fill_value in
  ret (est, pmap).

(** The two assignments under "Do some error checking", as a pair. *)
Definition norm_scales (nx ny : Z) : Z * Z :=
  let nx := if nx =? 0 then ny else nx in
  let ny := if ny =? 0 then nx else ny in
  (nx, ny).



(** An array without a leading axis to split levels on, or with no
    level at all: [a.reshape(a.shape[0], -1)] raises on it. *)
Definition no_levels (a : ndarray) : bool :=
  match shape a with
  | [] => true
  | n :: _ => (n =? 0)%nat
  end.

(** The first extent of an array with at least one axis. *)
Definition levels (a : ndarray) : nat := hd 0%nat (shape a).

(** The exception [a.reshape(a.shape[0], -1)] raises on an array
    without levels. *)
Definition no_levels_error (a : ndarray) : exn :=
  match shape a with
  | [] => IndexError "tuple index out of range"
  | _ => ValueError "cannot reshape array"
  end.

(** *** Sample data *)

Definition nan : spec_float := S754_nan.
Definition one : spec_float := Eval cbv in binary_normalize 53 1024 1 0 false.
Definition zero : spec_float := S754_zero false.

Definition vec (l : loc) (n : nat) : ndarray := mk_ndarray l [n] C_order.
Definition mat (l : loc) (r c : nat) : ndarray := mk_ndarray l [r; c] C_order.
Arguments vec (l n)%_nat_scope.
Arguments mat (l r c)%_nat_scope.

(** A library that answers every call with a fresh pair of zero
    vectors and touches nothing else. *)
Definition quiet_lib (n : nat) (c : oalib_call) (h : heap) : reply * heap :=
  (Returned (VPair (VArray (vec (List.length h) n))
                   (VArray (vec (S (List.length h)) n))),
   h ++ [replicate n zero; replicate n zero]).
Arguments quiet_lib n%_nat_scope c h.

(** Five one-point arrays at locations 0..4: x, y, d, xx, yy. *)
Definition h_surf (d0 : spec_float) : heap :=
  [[one]; [one]; [d0]; [one]; [one]].

(** x, y, z, xx, yy, v, zz and a weight map at locations 0..7. *)
Definition h_vol (z0 v0 : spec_float) : heap :=
  [[one]; [one]; [z0]; [one]; [one]; [v0]; [one]; [one; one]].

End Oa.

(** ** roms/obsgen.py *)

Module Obsgen.

(** What the module prints and warns, and the world outside it (files,
    grids) that only its callees see. *)
Record world {W : Type} : Type :=
  mk_world { stdout : list string; warnings : list string; outside : W }.

Arguments world : clear implicits.
Arguments mk_world {W} stdout warnings outside.

(** The calls that leave obsgen.py. *)
Inductive ext_call : Type :=
| convert_file (self : pyval) (file : string)
| to_netcdf (o : obs) (filename : string)
| seapy_convolve_mask (a : pyval)
| seapy_model_asgrid (grid : pyval).

(** An object is its attribute dictionary. *)
Abbreviation object := (gmap string pyval).

Section WithWorld.
Context {W : Type}.
Local Abbreviation M := (M ext_call (world W)).

(** A behaviour of the callees acts on the outside world only. *)
Definition lift (f : ext_call -> W -> reply * W)
    (c : ext_call) (w : world W) : reply * world W :=
  let '(r, o) := f c (outside w) in
  (r, mk_world (stdout w) (warnings w) o).

Definition print (s : string) : M unit :=
  fun w => Done tt (mk_world (stdout w ++ [s]) (warnings w) (outside w)).

Definition warn (msg : string) : M unit :=
  fun w => Done tt (mk_world (stdout w) (warnings w ++ [msg]) (outside w)).

(** Names bound at module level once obsgen.py is imported. *)
Definition module_globals : list (string * pyval) :=
  [ ("print_function", VOpaque "__future__.print_function");
    ("np", VOpaque "module numpy");
    ("netCDF4", VOpaque "module netCDF4");
    ("seapy", VOpaque "module seapy");
    ("datetime", VOpaque "module datetime");
    ("warn", VOpaque "function warnings.warn");
    ("obsgen", VOpaque "class obsgen");
    ("aquarius_sss", VOpaque "class aquarius_sss");
    ("argo_ctd", VOpaque "class argo_ctd");
    ("aviso_sla_map", VOpaque "class aviso_sla_map");
    ("ostia_sst_map", VOpaque "class ostia_sst_map");
    ("seaglider_profile", VOpaque "class seaglider_profile");
    ("tao_mooring", VOpaque "class tao_mooring") ].

(** *** class obsgen *)

Definition obsgen_init (self : object) (grid dt reftime : pyval) : M object :=
  let* g := call (seapy_model_asgrid grid) in
  let self := <["grid" := g]> self in
  let self := <["dt" := dt]> self in
  let self := <["epoch" := reftime]> self in
  ret self.

(** [int(f)] on a float. *)
Definition py_int (f : spec_float) : M Z :=
  match f with
  | S754_nan => raise (ValueError "cannot convert float NaN to integer")
  | S754_infinity _ =>
      raise (OverflowError "cannot convert float infinity to integer")
  | S754_zero _ => ret 0
  | S754_finite sgn m e =>
      let a := if 0 <=? e then Z.pos m * 2 ^ e else Z.pos m / 2 ^ (- e) in
      ret (if sgn then - a else a)
  end.

(** ["{:05d}".format(i)] *)
Definition format_05d (i : Z) : string :=
  let digits := NilZero.string_of_uint (N.to_uint (Z.abs_N i)) in
  let sign := if i <? 0 then "-" else "" in
  let width := (5 - String.length sign - String.length digits)%nat in
  sign +:+ String.concat "" (replicate width "0") +:+ digits.

(** [re.compile('\#').sub(repl, s)]: every ['#'] becomes [repl]. *)
Fixpoint sub_hash (repl s : string) : string :=
  match s with
  | EmptyString => EmptyString
  | String c rest =>
      if Ascii.eqb c (Ascii.ascii_of_nat 35)
      then repl +:+ sub_hash repl rest
      else String c (sub_hash repl rest)
  end.

(** [l[n]] *)
Definition index {A} (l : list A) (n : nat) : M A :=
  match l !! n with
  | Some a => ret a
  | None => raise (IndexError "index out of range")
  end.

(** [out_files] is one pattern string or a list of names. *)
Inductive out_files_arg : Type :=
| OutPattern (s : string)
| OutList (l : list string).

(** The body of the [try] in [batch_files], for the [n]-th file. *)
Definition process_file (self : pyval) (out_files : out_files_arg)
    (n : nat) (file : string) : M unit :=
  print file ;;;
  let* obs := call (convert_file self file) in
  match obs with
  | VNone => ret tt
  | VObs o =>
      match out_files with
      | OutPattern pattern =>
          let* t0 := index (obs_time o) 0 in
          let* i := py_int t0 in
          call (to_netcdf o (sub_hash (format_05d i) pattern)) ;;;
          ret tt
      | OutList names =>
          let* name := index names n in
          call (to_netcdf o name) ;;;
          ret tt
      end
  | _ => raise (AttributeError "object has no attribute 'to_netcdf'")
  end.

Definition cannot_be_processed (file : string) : string :=
  "WARNING: " +:+ file +:+ " cannot be processed.".

Fixpoint batch_loop (self : pyval) (out_files : out_files_arg)
    (n : nat) (in_files : list string) : M unit :=
  match in_files with
  | [] => ret tt
  | file :: rest =>
      try_except (process_file self out_files n file)
                 (fun _ => warn (cannot_be_processed file)) ;;;
      batch_loop self out_files (S n) rest
  end.

Definition batch_files (self : pyval) (in_files : list string)
    (out_files : out_files_arg) : M pyval :=
  batch_loop self out_files 0 in_files ;;;
  ret VNone.

(** *** The six readers *)

Inductive reader : Type :=
| aquarius_sss | argo_ctd | aviso_sla_map | ostia_sst_map
| seaglider_profile | tao_mooring.

(** The keyword arguments of the six constructors, defaults filled in
    by the caller. *)
Record init_args : Type :=
  mk_init_args {
    grid : pyval; dt : pyval; reftime : pyval;
    temp_limits : pyval; salt_limits : pyval;
    u_limits : pyval; v_limits : pyval; depth_limit : pyval;
    temp_error : pyval; salt_error : pyval;
    u_error : pyval; v_error : pyval;
    ssh_mean : pyval; ssh_error : pyval }.

Definition is_None (v : pyval) : bool :=
  match v with VNone => true | _ => false end.

(** [self.name = default if given is None else given] *)
Definition or_default (given default : pyval) : pyval :=
  if is_None given then default else given.

Definition float_35_5 : spec_float :=
  Eval cbv in binary_normalize 53 1024 71 (-1) false.

(** [super().__init__(grid, dt, epoch)]: the three argument names are
    looked up in the scope of the calling [__init__]. *)
Definition super_init (locals : list (string * pyval)) (self : object)
    : M object :=
  let* g := load_name locals module_globals "grid" in
  let* t := load_name locals module_globals "dt" in
  let* e := load_name locals module_globals "epoch" in
  obsgen_init self g t e.

Definition aquarius_sss_init (self : object)
    (grid dt reftime salt_limits salt_error : pyval) : M object :=
  let locals :=
    [ ("self", VOpaque "self"); ("grid", grid); ("dt", dt);
      ("reftime", reftime); ("salt_limits", salt_limits);
      ("salt_error", salt_error) ] in
  let self :=
    <["salt_limits" := or_default salt_limits (VPair (VInt 10) (VInt 36))]>
      self in
  let self := <["salt_error" := salt_error]> self in
  super_init locals self.

Definition argo_ctd_init (self : object)
    (grid dt reftime temp_limits salt_limits temp_error salt_error : pyval)
    : M object :=
  let locals :=
    [ ("self", VOpaque "self"); ("grid", grid); ("dt", dt);
      ("reftime", reftime); ("temp_limits", temp_limits);
      ("salt_limits", salt_limits); ("temp_error", temp_error);
      ("salt_error", salt_error) ] in
  let self :=
    <["temp_limits" := or_default temp_limits (VPair (VInt 5) (VInt 30))]>
      self in
  let self :=
    <["salt_limits" :=
        or_default salt_limits (VPair (VInt 10) (VFloat float_35_5))]>
      self in
  let self := <["temp_error" := temp_error]> self in
  let self := <["salt_error" := salt_error]> self in
  super_init locals self.

Definition aviso_sla_map_init (self : object)
    (grid dt reftime ssh_mean ssh_error : pyval) : M object :=
  let locals :=
    [ ("self", VOpaque "self"); ("grid", grid); ("dt", dt);
      ("reftime", reftime); ("ssh_mean", ssh_mean);
      ("ssh_error", ssh_error) ] in
  let* m :=
    if negb (is_None ssh_mean)
    then call (seapy_convolve_mask ssh_mean)
    else ret VNone in
  let self := <["ssh_mean" := m]> self in
  let self := <["ssh_error" := ssh_error]> self in
  super_init locals self.

Definition ostia_sst_map_init (self : object)
    (grid dt reftime temp_error temp_limits : pyval) : M object :=
  let locals :=
    [ ("self", VOpaque "self"); ("grid", grid); ("dt", dt);
      ("reftime", reftime); ("temp_error", temp_error);
      ("temp_limits", temp_limits) ] in
  let self := <["temp_error" := temp_error]> self in
  let self :=
    <["temp_limits" := or_default temp_limits (VPair (VInt 2) (VInt 35))]>
      self in
  super_init locals self.

Definition seaglider_profile_init (self : object)
    (grid dt reftime temp_limits salt_limits depth_limit temp_error
       salt_error : pyval) : M object :=
  let locals :=
    [ ("self", VOpaque "self"); ("grid", grid); ("dt", dt);
      ("reftime", reftime); ("temp_limits", temp_limits);
      ("salt_limits", salt_limits); ("depth_limit", depth_limit);
      ("temp_error", temp_error); ("salt_error", salt_error) ] in
  let self :=
    <["temp_limits" := or_default temp_limits (VPair (VInt 5) (VInt 30))]>
      self in
  let self :=
    <["salt_limits" :=
        or_default salt_limits (VPair (VInt 31) (VFloat float_35_5))]>
      self in
  let self := <["depth_limit" := depth_limit]> self in
  let self := <["temp_error" := temp_error]> self in
  let self := <["salt_error" := salt_error]> self in
  super_init locals self.

Definition tao_mooring_init (self : object)
    (grid dt reftime temp_limits salt_limits u_limits v_limits depth_limit
       temp_error salt_error u_error v_error : pyval) : M object :=
  let locals :=
    [ ("self", VOpaque "self"); ("grid", grid); ("dt", dt);
      ("reftime", reftime); ("temp_limits", temp_limits);
      ("salt_limits", salt_limits); ("u_limits", u_limits);
      ("v_limits", v_limits); ("depth_limit", depth_limit);
      ("temp_error", temp_error); ("salt_error", salt_error);
      ("u_error", u_error); ("v_error", v_error) ] in
  let self :=
    <["temp_limits" := or_default temp_limits (VPair (VInt 5) (VInt 30))]>
      self in
  let self :=
    <["salt_limits" :=
        or_default salt_limits (VPair (VInt 31) (VFloat float_35_5))]>
      self in
  let self :=
    <["u_limits" := or_default u_limits (VPair (VInt (-3)) (VInt 3))]> self in
  let self :=
    <["v_limits" := or_default v_limits (VPair (VInt (-3)) (VInt 3))]> self in
  let self := <["depth_limit" := depth_limit]> self in
  let self := <["temp_error" := temp_error]> self in
  let self := <["salt_error" := salt_error]> self in
  let self := <["u_error" := u_error]> self in
  let self := <["v_error" := v_error]> self in
  super_init locals self.

(** [cls(grid, dt, ...)]: a new object, initialized by the class. *)
Definition construct (cls : reader) (a : init_args) : M object :=
  match cls with
  | aquarius_sss =>
      aquarius_sss_init ∅ (grid a) (dt a) (reftime a) (salt_limits a)
        (salt_error a)
  | argo_ctd =>
      argo_ctd_init ∅ (grid a) (dt a) (reftime a) (temp_limits a)
        (salt_limits a) (temp_error a) (salt_error a)
  | aviso_sla_map =>
      aviso_sla_map_init ∅ (grid a) (dt a) (reftime a) (ssh_mean a)
        (ssh_error a)
  | ostia_sst_map =>
      ostia_sst_map_init ∅ (grid a) (dt a) (reftime a) (temp_error a)
        (temp_limits a)
  | seaglider_profile =>
      seaglider_profile_init ∅ (grid a) (dt a) (reftime a) (temp_limits a)
        (salt_limits a) (depth_limit a) (temp_error a) (salt_error a)
  | tao_mooring =>
      tao_mooring_init ∅ (grid a) (dt a) (reftime a) (temp_limits a)
        (salt_limits a) (u_limits a) (v_limits a) (depth_limit a)
        (temp_error a) (salt_error a) (u_error a) (v_error a)
  end.

(** The base class itself, for comparison. *)
Definition construct_obsgen (grid dt reftime : pyval) : M object :=
  obsgen_init ∅ grid dt reftime.


(** *** The state the batch loop ends in, in closed form: the outcome
    of every attempt in turn, with the warning added where it raised. *)
Definition attempt (f : ext_call -> W -> reply * W) (self : pyval)
    (out_files : out_files_arg) (n : nat) (file : string) (w : world W)
    : outcome (world W) unit :=
  run (lift f) (process_file self out_files n file w).

Fixpoint skip_and_warn (f : ext_call -> W -> reply * W) (self : pyval)
    (out_files : out_files_arg) (n : nat) (in_files : list string)
    (w : world W) : world W :=
  match in_files with
  | [] => w
  | file :: rest =>
      let w' :=
        match attempt f self out_files n file w with
        | Returns _ w1 => w1
        | Raises _ w1 =>
            mk_world (stdout w1) (warnings w1 ++ [cannot_be_processed file])
                     (outside w1)
        end in
      skip_and_warn f self out_files (S n) rest w'
  end.

End WithWorld.

(** *** Sample data *)

Definition sample_args : init_args :=
  mk_init_args (VOpaque "grid") (VInt 1) (VOpaque "epoch 2000-01-01")
    VNone VNone VNone VNone (VInt 0)
    (VInt 1) (VInt 1) (VInt 1) (VInt 1)
    (VOpaque "mean ssh") (VInt 1).

(** Callees that answer every call with [None], and callees where
    every conversion raises. *)
Definition obliging (c : ext_call) (o : unit) : reply * unit :=
  (Returned VNone, o).

Definition failing (c : ext_call) (o : unit) : reply * unit :=
  (Raised (Foreign 0), o).

Definition w0 : world unit := mk_world [] [] tt.

End Obsgen.

(** ** The calls a run makes *)

Module Trace.

Section Calls.
Context {E S : Type}.

(** The calls made while running [p] against [ext], in order. *)
Fixpoint calls {A} (ext : E -> S -> reply * S) (p : prog E S A) : list E :=
  match p with
  | Done _ _ | Fail _ _ => []
  | Call c s k => c :: (let '(r, s') := ext c s in calls ext (k r s'))
  end.


End Calls.

End Trace.

(** ** oa.py, continued: the tail of both entry points and a caller *)

Module OaMore.
Import Np Oa.

Local Abbreviation M := (M oalib_call heap).

(** What both entry points do with the reply of the library: unpack
    [vv, err], reshape [w vv] to the destination shape, normalize it in
    place and return it with the map.  [w] is the identity in oasurf and
    [transpose] in oavol. *)
Definition finish (w : ndarray -> ndarray) (shp : list nat) (pmap : ndarray)
    (r : reply) (s : heap) : prog oalib_call heap (masked_array * ndarray) :=
  pbind (match r with Returned v => Done v s | Raised e => Fail e s end)
    (fun r0 : pyval =>
       bind (unpack2 r0)
         (fun '(vv, _) =>
            bind (as_array vv)
              (fun vv0 =>
                 bind (reshape (w vv0) shp)
                   (fun vv1 =>
                      bind (fix_invalid vv1 fill_value)
                        (fun est0 => ret (est0, pmap)))))).

(** The use of oasurf in [aviso_sla_map.convert_file]:
    [seapy.oasurf(self.grid.I, self.grid.J, self.ssh_mean, obs.x, obs.y,
    nx=1, ny=1, weight=7)] under [if self.ssh_mean is not None]. *)
Definition aviso_mean_at_obs (grid_I grid_J : ndarray)
    (ssh_mean : option ndarray) (obs_x obs_y : ndarray)
    : M (option (masked_array * ndarray)) :=
  match ssh_mean with
  | Some mean =>
      let* mp := oasurf grid_I grid_J mean obs_x obs_y None 7 1 1 in
      ret (Some mp)
  | None => ret None
  end.

(** [a'] is what [a.ravel()] yields: flat, row-major, and on the buffer
    of [a] itself whenever that is already in row-major order. *)
Definition flat_view (a a' : ndarray) : Prop :=
  shape a' = [size a] /\ order a' = C_order /\
  (c_contiguous a = true -> buf a' = buf a).

(** [a'] is what [a.reshape(a.shape[0], -1)] yields, levels by points:
    a row-major view of a row-major array; for a column-major matrix a
    view that keeps its strides; an array elsewhere only as a row-major
    copy. *)
Definition rows_view (a a' : ndarray) : Prop :=
  shape a' = [levels a; (size a / levels a)%nat] /\
  (c_contiguous a = true -> buf a' = buf a /\ order a' = C_order) /\
  (forall n m, order a = F_order -> shape a = [n; m] ->
     c_contiguous a = false ->
     buf a' = buf a /\ order a' = Strided [1; n]%nat) /\
  (buf a' <> buf a -> order a' = C_order).

(** [a'] is what oavol hands the library for [a], points by levels:
    a column-major view of a row-major array; for a column-major matrix
    a view of it that is row-major and not column-major; an array
    elsewhere only as a column-major copy. *)
Definition points_by_levels (a a' : ndarray) : Prop :=
  shape a' = [(size a / levels a)%nat; levels a] /\
  (c_contiguous a = true -> buf a' = buf a /\ order a' = F_order) /\
  (forall n m, order a = F_order -> shape a = [n; m] ->
     c_contiguous a = false ->
     buf a' = buf a /\ c_contiguous a' = true /\ f_contiguous a' = false) /\
  (buf a' <> buf a -> order a' = F_order).

(** A library that answers every call with a pair of new vectors of
    NaN, and one that raises on every call. *)
Definition nan_lib (n : nat) (c : oalib_call) (h : heap) : reply * heap :=
  (Returned (VPair (VArray (vec (List.length h) n))
                   (VArray (vec (S (List.length h)) n))),
   h ++ [replicate n nan; replicate n nan]).

Definition broken_lib (c : oalib_call) (h : heap) : reply * heap :=
  (Raised (Foreign 7), h).

End OaMore.

(** ** roms/obsgen.py, continued *)

Module ObsgenMore.
Import Obsgen.

(** The file a call converts, and the name a call writes. *)
Definition conversion (c : ext_call) : option (pyval * string) :=
  match c with
  | convert_file self file => Some (self, file)
  | _ => None
  end.

Definition written (c : ext_call) : option string :=
  match c with
  | to_netcdf _ name => Some name
  | _ => None
  end.




(** The number a string of decimal digits denotes, leading zeros
    allowed. *)
Definition decimal_value (s : string) : option N :=
  option_map N.of_uint (NilEmpty.uint_of_string s).

(** [int(t)] for a finite [t], in closed form. *)
Definition start_day (t : spec_float) : Z :=
  match t with
  | S754_finite sgn m e =>
      let a := if 0 <=? e then Z.pos m * 2 ^ e else Z.pos m / 2 ^ (- e) in
      if sgn then - a else a
  | _ => 0
  end.

(** ['#' in s] *)
Fixpoint has_hash (s : string) : bool :=
  match s with
  | EmptyString => false
  | String c rest => Ascii.eqb c (Ascii.ascii_of_nat 35) || has_hash rest
  end.

Section WithWorld.
Context {W : Type}.

(** [obsgen.convert_file]: the stub of the base class, [pass]. *)
Definition obsgen_convert_file (self : pyval) (file : string) (title : pyval)
    : Py.M ext_call (world W) pyval :=
  ret VNone.

(** Callees among which [convert_file] is the stub of the base class. *)
Definition base_class (f : ext_call -> W -> reply * W)
    (c : ext_call) (o : W) : reply * W :=
  match c with
  | convert_file self file =>
      match run (lift f) (obsgen_convert_file self file VNone
                            (mk_world [] [] o)) with
      | Returns v w => (Returned v, outside w)
      | Raises e w => (Raised e, outside w)
      end
  | _ => f c o
  end.

End WithWorld.

(** Callees that keep a list of the names written: every conversion
    yields an observation that starts at day 3234.5. *)
Definition recording (c : ext_call) (o : list string) : reply * list string :=
  match c with
  | convert_file _ _ =>
      (Returned (VObs (mk_obs [S754_finite false 6469 (-1)])), o)
  | to_netcdf _ name => (Returned VNone, o ++ [name])
  | _ => (Returned VNone, o)
  end.

End ObsgenMore.

(** ** roms/obsgen.py: the header of a SeaGlider profile *)

Module Glider.

(** A Python [str] is a sequence of Unicode code points. *)
Abbreviation str := (list N).

(** The [str] of a literal of ASCII characters. *)
Definition text (s : string) : str :=
  map N_of_ascii (list_ascii_of_string s).

Definition newline : N := 10%N.
Definition percent : N := 37%N.
Definition colon : N := 58%N.
Definition space : N := 32%N.
Definition underscore : N := 95%N.

(** [c.isalnum()] for an ASCII character [c]. *)
Definition ascii_alnum (c : N) : bool :=
  ((48 <=? c) && (c <=? 57) || (65 <=? c) && (c <=? 90)
   || (97 <=? c) && (c <=? 122))%N.

(** A table of alphanumeric characters that is right on ASCII. *)
Definition agrees_on_ascii (isalnum : N -> bool) : Prop :=
  forall c, (c < 128)%N -> isalnum c = ascii_alnum c.

Definition no_newline (c : N) : bool := negb (c =? newline)%N.

Section Unicode.

(** [c.isalnum()]: the alphanumeric characters of the Unicode database
    the interpreter comes with. *)
Variable isalnum : N -> bool.

(** [\w] in a pattern on [str]: an alphanumeric character or the
    underscore. *)
Definition is_word (c : N) : bool := isalnum c || (c =? underscore)%N.

(** The longest prefix of word characters, and what follows it. *)
Fixpoint span_word (s : str) : str * str :=
  match s with
  | [] => ([], [])
  | c :: rest =>
      if is_word c
      then let '(k, tl) := span_word rest in (c :: k, tl)
      else ([], s)
  end.

(** The characters before the first newline, and what follows them. *)
Fixpoint until_newline (s : str) : str * str :=
  match s with
  | [] => ([], [])
  | c :: rest =>
      if (c =? newline)%N
      then ([], s)
      else let '(v, tl) := until_newline rest in (c :: v, tl)
  end.

(** [parser.findall(line)] for the compiled pattern of the source: a
    percent sign at the start, a non-empty word (group 1), a colon and a
    space, then any characters but a newline up to the end of the line
    (group 2), where the end may be followed by one final newline.  The
    result has at most one element, the pair of the two groups. *)
Definition findall (line : str) : list (str * str) :=
  match line with
  | c :: rest =>
      if (c =? percent)%N
      then
        match span_word rest with
        | (k0 :: k, c1 :: c2 :: rest2) =>
            if (c1 =? colon)%N && (c2 =? space)%N
            then
              match until_newline rest2 with
              | (v, []) => [(k0 :: k, v)]
              | (v, [_]) => [(k0 :: k, v)]
              | _ => []
              end
            else []
        | _ => []
        end
      else []
  | [] => []
  end.

(** One round of the loop over the header:
    [try: opt = parser.findall(line); params[opt[0][0]] = opt[0][1]]
    [except: pass]. *)
Definition read_line (params : gmap str str) (line : str) : gmap str str :=
  match findall line !! 0%nat with
  | Some (key, value) => <[key := value]> params
  | None => params
  end.

(** [params = {}] and the loop over [header]. *)
Definition parse_header (header : list str) : gmap str str :=
  foldl read_line ∅ header.

(** The key of a line, if the line is a header line. *)
Definition key_of (line : str) : option str :=
  fst <$> findall line !! 0%nat.

End Unicode.

(** ["GLIDER" if params.get("glider", None) is None else]
    ["GLIDER_SG"+params["glider"]] *)
Definition glider_name (params : gmap str str) : str :=
  match params !! text "glider" with
  | None => text "GLIDER"
  | Some id => text "GLIDER_SG" ++ id
  end.

(** A header line [%key: value] with its newline. *)
Definition header_line (key value : str) : str :=
  percent :: key ++ colon :: space :: value ++ [newline].

(** *** Sample data: a table with the ASCII letters and digits and the
    letter e with an acute accent, and a key spelt with that letter. *)
Definition sample_alnum (c : N) : bool := ascii_alnum c || (c =? 233)%N.

Definition cle : str := text "cl" ++ [233%N].

End Glider.

(** * Theorems *)

(** ** Facts about programs *)

Module ProgFacts.

Section Run.
Context {E S : Type}.
Variable ext : E -> S -> reply * S.

Lemma run_pbind {A B} (p : prog E S A) (f : A -> M E S B) :
  run ext (pbind p f) =
  match run ext p with
  | Returns a s => run ext (f a s)
  | Raises e s => Raises e s
  end.
Proof.
  induction p as [a s | e s | c s k IH]; cbn; try reflexivity.
  destruct (ext c s) as [r s']. apply IH.
Qed.

Lemma run_ptry {A} (p : prog E S A) (h : exn -> M E S A) :
  run ext (ptry p h) =
  match run ext p with
  | Returns a s => Returns a s
  | Raises e s => run ext (h e s)
  end.
Proof.
  induction p as [a s | e s | c s k IH]; cbn; try reflexivity.
  destruct (ext c s) as [r s']. apply IH.
Qed.

Lemma run_pbind_returns {A B} (p : prog E S A) (f : A -> M E S B) b s' :
  run ext (pbind p f) = Returns b s' ->
  exists a s, run ext p = Returns a s /\ run ext (f a s) = Returns b s'.
Proof.
  rewrite run_pbind. destruct (run ext p) as [a s | e s]; [eauto | discriminate].
Qed.


End Run.

End ProgFacts.

(** ** Facts about the numpy operations *)

Module NpFacts.
Import Np.

Section WithCalls.
Context {E : Type}.

Lemma store_load_id (a : ndarray) (h : heap) :
  store (buf a) (load a h) h = h.
Proof.
  unfold store, load. destruct (h !! buf a) as [b |] eqn:Hb; cbn.
  - by apply list_insert_id.
  - apply list_insert_ge. by apply lookup_ge_None.
Qed.

Lemma fix_value_finite fv (l : list spec_float) :
  existsb id (map (fun v => negb (isfinite v)) l) = false ->
  map (fix_value fv) l = l.
Proof.
  induction l as [| v l IH]; cbn; [done |].
  intros H. apply orb_false_iff in H as [Hv Hl].
  unfold id in Hv. apply negb_false_iff in Hv.
  unfold fix_value at 1. rewrite Hv. f_equal. by apply IH.
Qed.

(** [fix_invalid] never raises; it leaves every buffer but that of
    its argument alone. *)
Lemma fix_invalid_eq (a : ndarray) fv (h : heap) :
  fix_invalid (E := E) a fv h =
  Done (mk_masked a (fix_mask a h)) (fix_heap a fv h).
Proof.
  unfold fix_invalid, fix_mask, fix_heap, bind, read, write, ret. cbn.
  destruct (existsb id _) eqn:Hany; cbn; [reflexivity |].
  rewrite fix_value_finite by assumption. by rewrite store_load_id.
Qed.

Lemma reshape_eq (a : ndarray) shp (h : heap) :
  foldr Nat.mul 1%nat shp = size a ->
  reshape (E := E) a shp h =
  Done (reshape_arr a shp h) (reshape_heap a shp h).
Proof.
  intros Hsz. unfold reshape, reshape_arr, reshape_heap.
  rewrite Hsz, Nat.eqb_refl. cbn.
  destruct (reshape_view a shp); reflexivity.
Qed.

Lemma ravel_eq (a : ndarray) (h : heap) :
  ravel (E := E) a h = Done (ravel_arr a h) (ravel_heap a h).
Proof.
  unfold ravel, ravel_arr, ravel_heap.
  destruct (c_contiguous a); reflexivity.
Qed.

Lemma reshape_pure (a : ndarray) shp (h : heap) :
  (exists a' h', reshape (E := E) a shp h = Done a' h') \/
  (exists e, reshape (E := E) a shp h = Fail e h).
Proof.
  unfold reshape. destruct (negb _); [right; eauto |].
  destruct (reshape_view a shp); cbn; left; eauto.
Qed.

End WithCalls.

(** *** What the two heap transformers do to a buffer *)

Lemma lookup_ravel_heap (a : ndarray) (h : heap) l b :
  h !! l = Some b -> ravel_heap a h !! l = Some b.
Proof.
  intros H. unfold ravel_heap. destruct (c_contiguous a); [done |].
  by apply lookup_app_l_Some.
Qed.

Lemma lookup_reshape_heap (a : ndarray) shp (h : heap) l b :
  h !! l = Some b -> reshape_heap a shp h !! l = Some b.
Proof.
  intros H. unfold reshape_heap. destruct (reshape_view a shp); [done |].
  by apply lookup_app_l_Some.
Qed.

Lemma lookup_fix_heap_eq (a : ndarray) fv (h : heap) b :
  h !! buf a = Some b ->
  fix_heap a fv h !! buf a = Some (map (fix_value fv) b).
Proof.
  intros H. unfold fix_heap, store, load. rewrite H. cbn.
  apply list_lookup_insert_eq. by eapply lookup_lt_Some.
Qed.

Lemma lookup_fix_heap_ne (a : ndarray) fv (h : heap) l :
  l <> buf a -> fix_heap a fv h !! l = h !! l.
Proof. intros H. unfold fix_heap, store. by apply list_lookup_insert_ne. Qed.

Lemma fix_value_idem fv (b : list spec_float) :
  isfinite fv = true ->
  map (fix_value fv) (map (fix_value fv) b) = map (fix_value fv) b.
Proof.
  intros Hfv. rewrite map_map. apply map_ext. intros v.
  unfold fix_value. destruct (isfinite v) eqn:Hv; [by rewrite Hv | by rewrite Hfv].
Qed.

(** Normalizing any array leaves an already normalized buffer as it is. *)
Lemma lookup_fix_heap_fixed (a : ndarray) fv (h : heap) l b :
  isfinite fv = true ->
  h !! l = Some (map (fix_value fv) b) ->
  fix_heap a fv h !! l = Some (map (fix_value fv) b).
Proof.
  intros Hfv H. destruct (decide (l = buf a)) as [-> | Hne].
  - pose proof (lookup_fix_heap_eq a fv h _ H) as H'.
    by rewrite fix_value_idem in H'.
  - etrans; [exact (lookup_fix_heap_ne a fv h l Hne) | exact H].
Qed.

(** Reshaping, at some inputs: a column-major 4 by 3 array can be read
    as 2 by 2 by 3 and as itself on its own buffer, with the strides
    shown, but not as 3 by 4 or as a flat array; a row-major array and
    an empty one are always reshaped in place. *)
Example reshape_view_samples :
  reshape_view (mk_ndarray 0 [4; 3]%nat F_order) [2; 2; 3]%nat =
    Some (Strided [2; 1; 4]%nat) /\
  reshape_view (mk_ndarray 0 [4; 3]%nat F_order) [4; 3]%nat =
    Some (Strided [1; 4]%nat) /\
  reshape_view (mk_ndarray 0 [4; 3]%nat F_order) [4; 1; 3]%nat =
    Some (Strided [1; 12; 4]%nat) /\
  reshape_view (mk_ndarray 0 [4; 3]%nat F_order) [3; 4]%nat = None /\
  reshape_view (mk_ndarray 0 [4; 3]%nat F_order) [12]%nat = None /\
  reshape_view (mk_ndarray 0 [2; 3; 4]%nat F_order) [2; 12]%nat = None /\
  reshape_view (mk_ndarray 0 [4; 3]%nat C_order) [12]%nat = Some C_order /\
  reshape_view (mk_ndarray 0 [4; 1]%nat F_order) [2; 2]%nat = Some C_order /\
  reshape_view (mk_ndarray 0 [0; 3]%nat F_order) [3; 0]%nat = Some C_order /\
  reshape_view (mk_ndarray 0 [3; 4]%nat (Strided [1; 3]%nat)) [12]%nat =
    None /\
  reshape_view (mk_ndarray 0 [3; 4]%nat (Strided [4; 1]%nat)) [12]%nat =
    Some C_order.
Proof. repeat split. Qed.

(** [np.zeros], at some shapes. *)
Example zeros_error_samples :
  zeros_error [1; 10] = None /\
  zeros_error [5; 0] = None /\
  zeros_error [1; -1] =
    Some (ValueError "negative dimensions are not allowed") /\
  zeros_error [0; -1] =
    Some (ValueError "negative dimensions are not allowed") /\
  zeros_error [1; 9223372036854775808] =
    Some (ValueError "Maximum allowed dimension exceeded") /\
  zeros_error [1; 1152921504606846975] = None /\
  zeros_rejects [1; 1152921504606846976] = true.
Proof. repeat split. Qed.

End NpFacts.

Import Np Oa.

Module OaFacts.
Import ProgFacts NpFacts.

Lemma zeros_eq {E} (n : nat) (w : Z) (h : heap) :
  zeros (E := E) [Z.of_nat n; w] F_order h =
  match zeros_error [Z.of_nat n; w] with
  | Some e => Fail e h
  | None =>
      Done (mk_ndarray (List.length h) [n; Z.to_nat w] F_order)
           (h ++ [replicate (n * (Z.to_nat w * 1))%nat (S754_zero false)])
  end.
Proof.
  unfold zeros. destruct (zeros_error _); [reflexivity |].
  unfold bind, alloc, ret. cbn. by rewrite Nat2Z.id.
Qed.

(** The shapes [np.zeros([n, w])] accepts: [w] is not negative and the
    array, an empty axis counted as 1, stays within [max_intp] bytes. *)
Lemma zeros_accepts (n : nat) (w : Z) :
  zeros_error [Z.of_nat n; w] = None <->
  0 <= w /\ itemsize * Z.max 1 (Z.of_nat n) * Z.max 1 w <= max_intp.
Proof.
  unfold zeros_error, check_dims, itemsize, max_intp. cbn [existsb].
  repeat match goal with
  | |- context [Z.ltb ?a ?b] => destruct (Z.ltb_spec a b)
  | |- context [Z.eqb ?a ?b] => destruct (Z.eqb_spec a b)
  end; cbn [orb]; split; try discriminate; try reflexivity; try lia;
  try (intros [? ?]; exfalso; nia).
Qed.


Ltac step :=
  first
    [ rewrite fix_invalid_eq
    | rewrite ravel_eq
    | rewrite zeros_eq ];
  cbn [pbind].

Lemma oavol_None_fails x y z v xx yy zz weight nx ny h :
  exists h',
    oavol x y z v xx yy zz None weight nx ny h =
    Fail (default (NameError "ones")
            (zeros_error [Z.of_nat (size xx); weight])) h'.
Proof.
  unfold oavol, bind. step. step.
  destruct (zeros_error _); cbn [pbind default]; [eauto |].
  do 2 step. cbn. eauto.
Qed.

Lemma shape0_eq {E} a (h : heap) :
  shape0 (E := E) a h =
  match shape a with
  | [] => Fail (IndexError "tuple index out of range") h
  | n :: _ => Done n h
  end.
Proof. unfold shape0. destruct (shape a); reflexivity. Qed.

Lemma size_cons a n rest : shape a = n :: rest -> size a = (n * foldr Nat.mul 1 rest)%nat.
Proof. unfold size. by intros ->. Qed.

Lemma reshape_infer_eq {E} a n rest (h : heap) :
  shape a = n :: rest -> n <> 0%nat ->
  reshape_infer (E := E) a n h =
  Done (reshape_arr a [n; (size a / n)%nat] h)
       (reshape_heap a [n; (size a / n)%nat] h).
Proof.
  intros Hs Hn. unfold reshape_infer.
  destruct (Nat.eqb_spec n 0) as [| _]; [contradiction |].
  pose proof (size_cons a n rest Hs) as Hsz.
  assert (Hmod : (size a mod n = 0)%nat).
  { rewrite Hsz, (Nat.mul_comm n). apply Nat.Div0.mod_mul. }
  rewrite Hmod. cbn [Nat.eqb negb].
  apply reshape_eq. cbn [foldr].
  rewrite Nat.mul_1_r. symmetry. apply Nat.Div0.div_exact. exact Hmod.
Qed.

Lemma reshape_infer_zero {E} a (h : heap) :
  reshape_infer (E := E) a 0 h = Fail (ValueError "cannot reshape array") h.
Proof. reflexivity. Qed.

(** The rows step [a.reshape(a.shape[0], -1)] in closed form. *)
Lemma rows_eq {E B} a (h : heap) (f : ndarray -> M E heap B) :
  pbind (shape0 a h) (fun n s => pbind (reshape_infer a n s) f) =
  if no_levels a
  then Fail (match shape a with
             | [] => IndexError "tuple index out of range"
             | _ => ValueError "cannot reshape array"
             end) h
  else f (reshape_arr a [levels a; (size a / levels a)%nat] h)
         (reshape_heap a [levels a; (size a / levels a)%nat] h).
Proof.
  rewrite shape0_eq. unfold no_levels, levels.
  destruct (shape a) as [| n rest] eqn:Hs; [reflexivity |].
  cbn [pbind hd]. destruct (Nat.eqb_spec n 0) as [-> | Hn].
  - by rewrite reshape_infer_zero.
  - by rewrite (reshape_infer_eq a n rest h Hs Hn).
Qed.

(** C1 (the code departs from the claim): with no weight map supplied
    oavol allocates the map and then raises on the undefined name [ones]
    (or already in [np.zeros], on a neighbour count it refuses); it
    reaches neither the weight-map builder nor the per-level routine. *)
Theorem oavol_without_map_raises x y z v xx yy zz weight nx ny h :
  (exists h',
     oavol x y z v xx yy zz None weight nx ny h =
     Fail (match zeros_error [Z.of_nat (size xx); weight] with
           | Some e => e
           | None => NameError "ones"
           end) h') /\
  first_call (oavol x y z v xx yy zz None weight nx ny h) = None.
Proof.
  destruct (oavol_None_fails x y z v xx yy zz weight nx ny h) as [h' H].
  split; [eauto | by rewrite H].
Qed.

(** The only gate in front of oa2d is the allocation of the map. *)
Lemma oasurf_gate x y d xx yy pmap weight nx ny h :
  match oasurf x y d xx yy pmap weight nx ny h with
  | Fail e _ =>
      pmap = None /\ zeros_error [Z.of_nat (size xx); weight] = Some e
  | Call c _ _ =>
      (pmap = None -> zeros_error [Z.of_nat (size xx); weight] = None) /\
      (exists x' y' d' xx' yy' m,
         c = oa2d x' y' d' xx' yy' (norm_scales nx ny).1 (norm_scales nx ny).2
                  m /\
         match pmap with
         | Some p => m = p
         | None => shape m = [size xx; Z.to_nat weight]
         end)
  | Done _ _ => False
  end.
Proof.
  unfold oasurf, bind. step.
  destruct pmap as [p |].
  - cbn [ret pbind]. do 5 step. cbn. split; [discriminate | eauto 10].
  - step. destruct (zeros_error _) as [e |]; cbn [pbind].
    + auto.
    + do 5 step. cbn. split; [reflexivity | eauto 10].
Qed.

Lemma oavol_gate x y z v xx yy zz p weight nx ny h :
  match oavol x y z v xx yy zz (Some p) weight nx ny h with
  | Fail e _ => no_levels z || no_levels v || no_levels zz = true
  | Call c _ _ =>
      no_levels z || no_levels v || no_levels zz = false /\
      exists x' y' z' v' xx' yy' zz',
        c = oa3d x' y' z' v' xx' yy' zz'
                 (norm_scales nx ny).1 (norm_scales nx ny).2 p
  | Done _ _ => False
  end.
Proof.
  unfold oavol, bind. step. cbn [ret pbind ma_data]. do 2 step.
  rewrite rows_eq. destruct (no_levels z); [reflexivity |].
  rewrite rows_eq. destruct (no_levels v); [reflexivity |].
  do 2 step.
  rewrite rows_eq. destruct (no_levels zz); [reflexivity |].
  cbn. eauto 10.
Qed.

Lemma norm_scales_spec nx ny :
  (nx = 0 -> (norm_scales nx ny).1 = ny) /\
  (nx <> 0 -> (norm_scales nx ny).1 = nx) /\
  (ny = 0 -> (norm_scales nx ny).2 = (norm_scales nx ny).1) /\
  (ny <> 0 -> (norm_scales nx ny).2 = ny) /\
  (0 <= nx -> 0 <= ny -> nx <> 0 \/ ny <> 0 ->
   0 < (norm_scales nx ny).1 /\ 0 < (norm_scales nx ny).2) /\
  (nx = 0 -> ny = 0 ->
   (norm_scales nx ny).1 = 0 /\ (norm_scales nx ny).2 = 0).
Proof.
  unfold norm_scales. cbn [fst snd].
  destruct (Z.eqb_spec nx 0), (Z.eqb_spec ny 0); repeat split; lia.
Qed.

(** C6, at two inputs: with both scales zero neither entry point raises
    or repairs anything.  The pair (0, 0) is handed to the library
    routine, and with a library that answers, the call returns an
    estimate like any other. *)
Lemma both_scales_zero_reach_the_library :
  (exists pm s est p s',
     first_call
       (oasurf (vec 0 1) (vec 1 1) (vec 2 1) (vec 3 1) (vec 4 1) None 10 0 0
               (h_surf one)) =
       Some (oa2d (vec 0 1) (vec 1 1) (vec 2 1) (vec 3 1) (vec 4 1) 0 0 pm,
             s) /\
     run (quiet_lib 1)
       (oasurf (vec 0 1) (vec 1 1) (vec 2 1) (vec 3 1) (vec 4 1) None 10 0 0
               (h_surf one)) = Returns (est, p) s') /\
  (exists z' v' zz' s est p s',
     first_call
       (oavol (vec 0 1) (vec 1 1) (mat 2 1 1) (mat 5 1 1) (vec 3 1) (vec 4 1)
              (mat 6 1 1) (Some (mat 7 1 2)) 10 0 0 (h_vol one one)) =
       Some (oa3d (vec 0 1) (vec 1 1) z' v' (vec 3 1) (vec 4 1) zz' 0 0
                  (mat 7 1 2), s) /\
     run (quiet_lib 1)
       (oavol (vec 0 1) (vec 1 1) (mat 2 1 1) (mat 5 1 1) (vec 3 1) (vec 4 1)
              (mat 6 1 1) (Some (mat 7 1 2)) 10 0 0 (h_vol one one)) =
       Returns (est, p) s').
Proof.
  split.
  - eexists _, _, _, _, _. split; reflexivity.
  - eexists _, _, _, _, _, _, _. split; reflexivity.
Qed.

(** C6, as the code has it: the library routine is called with the
    normalized scales, by oasurf whenever the map is supplied or can be
    allocated, by oavol with a map supplied whenever z, v and zz have
    levels.  A zero scale has taken the value of the other axis, and if
    the given scales are non-negative and not both zero, both normalized
    scales are positive.  When both are zero the pair stays (0, 0) and
    is handed on as it is. *)
Theorem scales_normalized x y d z v xx yy zz pmap p weight nx ny h :
  exists nx' ny',
    ((nx = 0 -> nx' = ny) /\ (nx <> 0 -> nx' = nx) /\
     (ny = 0 -> ny' = nx') /\ (ny <> 0 -> ny' = ny) /\
     (0 <= nx -> 0 <= ny -> nx <> 0 \/ ny <> 0 -> 0 < nx' /\ 0 < ny') /\
     (nx = 0 -> ny = 0 -> nx' = 0 /\ ny' = 0)) /\
    ((pmap = None -> zeros_error [Z.of_nat (size xx); weight] = None) ->
     exists x' y' d' xx' yy' pm s,
       first_call (oasurf x y d xx yy pmap weight nx ny h) =
       Some (oa2d x' y' d' xx' yy' nx' ny' pm, s)) /\
    (no_levels z || no_levels v || no_levels zz = false ->
     exists x' y' z' v' xx' yy' zz' s,
       first_call (oavol x y z v xx yy zz (Some p) weight nx ny h) =
       Some (oa3d x' y' z' v' xx' yy' zz' nx' ny' p, s)).
Proof.
  exists (norm_scales nx ny).1, (norm_scales nx ny).2.
  split; [apply norm_scales_spec |]. split.
  - intros Hz.
    pose proof (oasurf_gate x y d xx yy pmap weight nx ny h) as G.
    destruct (oasurf _ _ _ _ _ _ _ _ _ _) as [? ? | e s | c s k];
      [contradiction | |].
    + destruct G as (-> & He). rewrite Hz in He by reflexivity. discriminate.
    + destruct G as (_ & x' & y' & d' & xx' & yy' & m & -> & _).
      cbn [first_call]. eauto 10.
  - intros Hl.
    pose proof (oavol_gate x y z v xx yy zz p weight nx ny h) as G.
    destruct (oavol _ _ _ _ _ _ _ _ _ _ _ _) as [? ? | e s | c s k];
      [contradiction | congruence |].
    destruct G as (_ & x' & y' & z' & v' & xx' & yy' & zz' & ->).
    cbn [first_call]. eauto 10.
Qed.

Lemma scales_normalized_witness :
  (exists x' y' d' xx' yy' pm s,
     first_call (oasurf (vec 0 1) (vec 1 1) (vec 2 1) (vec 3 1) (vec 4 1)
                        None 10 0 3 (h_surf one)) =
     Some (oa2d x' y' d' xx' yy' 3 3 pm, s)) /\
  (exists x' y' z' v' xx' yy' zz' s,
     first_call (oavol (vec 0 1) (vec 1 1) (mat 2 1 1) (mat 5 1 1) (vec 3 1)
                       (vec 4 1) (mat 6 1 1) (Some (mat 7 1 2)) 10 0 3
                       (h_vol one one)) =
     Some (oa3d x' y' z' v' xx' yy' zz' 3 3 (mat 7 1 2), s)).
Proof.
  destruct (scales_normalized (vec 0 1) (vec 1 1) (vec 2 1) (mat 2 1 1)
              (mat 5 1 1) (vec 3 1) (vec 4 1) (mat 6 1 1) None (mat 7 1 2)
              10 0 3 (h_surf one))
    as (nx' & ny' & (H1 & _ & _ & H4 & _) & Hs & _).
  destruct (scales_normalized (vec 0 1) (vec 1 1) (vec 2 1) (mat 2 1 1)
              (mat 5 1 1) (vec 3 1) (vec 4 1) (mat 6 1 1) None (mat 7 1 2)
              10 0 3 (h_vol one one))
    as (nx2 & ny2 & (H1' & _ & _ & H4' & _) & _ & Hv).
  rewrite (H1 eq_refl), H4 in Hs by discriminate.
  rewrite (H1' eq_refl), H4' in Hv by discriminate.
  split; [apply Hs; reflexivity | apply Hv; reflexivity].
Defined.



(** C5 (the code departs from the claim): oavol normalizes the depth
    array z and nothing else.  With a NaN in both z and v, the depth
    array reaches oa3d with the fill value in place of the NaN, while
    the value array reaches it with the NaN untouched. *)
Theorem oavol_values_not_normalized :
  exists z' v' zz' s,
    first_call
      (oavol (vec 0 1) (vec 1 1) (mat 2 1 1) (mat 5 1 1) (vec 3 1) (vec 4 1)
             (mat 6 1 1) (Some (mat 7 1 2)) 10 2 2 (h_vol nan nan)) =
    Some (oa3d (vec 0 1) (vec 1 1) z' v' (vec 3 1) (vec 4 1) zz' 2 2
               (mat 7 1 2), s) /\
    load z' s = [fill_value] /\
    load v' s = [nan].
Proof. eexists _, _, _, _. repeat split. Qed.

(** C9: with a weight map supplied the neighbour count is never read:
    under any behaviour of the library, two calls that differ only in
    [weight] have the same outcome (estimate, map, final state, or the
    same exception). *)
Theorem weight_inert ext x y d z v xx yy zz p w1 w2 nx ny h :
  run ext (oasurf x y d xx yy (Some p) w1 nx ny h) =
  run ext (oasurf x y d xx yy (Some p) w2 nx ny h) /\
  run ext (oavol x y z v xx yy zz (Some p) w1 nx ny h) =
  run ext (oavol x y z v xx yy zz (Some p) w2 nx ny h).
Proof. split; reflexivity. Qed.

Ltac inv_run_as H Ha :=
  unfold bind in H; cbn beta in H;
  apply run_pbind_returns in H;
  let a := fresh "a" in
  let s := fresh "s" in
  destruct H as (a & s & Ha & H);
  try match type of H with
      | context [match a with (_, _) => _ end] => destruct a
      end.

Ltac inv_run H := let Ha := fresh "Hstep" in inv_run_as H Ha.

Lemma run_reshape_shape {E} (ext : E -> heap -> reply * heap) a shp h a' h' :
  run ext (reshape a shp h) = Returns a' h' -> shape a' = shp.
Proof.
  unfold reshape. destruct (negb _); [discriminate |].
  destruct (reshape_view a shp); cbn; intros [= <- _]; reflexivity.
Qed.

Lemma run_fix_invalid_data {E} (ext : E -> heap -> reply * heap) a fv h m h' :
  run ext (fix_invalid a fv h) = Returns m h' -> ma_data m = a.
Proof. rewrite fix_invalid_eq. cbn. by intros [= <- _]. Qed.

Lemma oasurf_shape ext x y d xx yy pmap weight nx ny h est p s' :
  run ext (oasurf x y d xx yy pmap weight nx ny h) = Returns (est, p) s' ->
  shape (ma_data est) = shape xx.
Proof.
  unfold oasurf. intros H. do 10 inv_run H.
  inv_run_as H Hre. inv_run_as H Hfix.
  cbn in H. injection H as <- _ _.
  apply run_fix_invalid_data in Hfix. apply run_reshape_shape in Hre.
  congruence.
Qed.

Lemma oavol_shape ext x y z v xx yy zz pmap weight nx ny h est p s' :
  run ext (oavol x y z v xx yy zz pmap weight nx ny h) = Returns (est, p) s' ->
  shape (ma_data est) = shape zz.
Proof.
  unfold oavol. intros H. do 15 inv_run H.
  inv_run_as H Hre. inv_run_as H Hfix.
  cbn in H. injection H as <- _ _.
  apply run_fix_invalid_data in Hfix. apply run_reshape_shape in Hre.
  congruence.
Qed.

(** C7: whatever the library answers, an estimate returned by oasurf
    has the shape of [xx] and an estimate returned by oavol has the
    shape of [zz]. *)
Theorem estimate_shape ext x y d z v xx yy zz pmap weight nx ny h est p s' :
  (run ext (oasurf x y d xx yy pmap weight nx ny h) = Returns (est, p) s' ->
   shape (ma_data est) = shape xx) /\
  (run ext (oavol x y z v xx yy zz pmap weight nx ny h) = Returns (est, p) s' ->
   shape (ma_data est) = shape zz).
Proof. split; [apply oasurf_shape | apply oavol_shape]. Qed.

Lemma estimate_shape_witness :
  (exists est p s',
     run (quiet_lib 1)
         (oasurf (vec 0 1) (vec 1 1) (vec 2 1) (vec 3 1) (vec 4 1) None 2 2 2
                 (h_surf nan)) = Returns (est, p) s' /\
     shape (ma_data est) = [1%nat]) /\
  (exists est p s',
     run (quiet_lib 1)
         (oavol (vec 0 1) (vec 1 1) (mat 2 1 1) (mat 5 1 1) (vec 3 1)
                (vec 4 1) (mat 6 1 1) (Some (mat 7 1 2)) 2 2 2
                (h_vol nan nan)) = Returns (est, p) s' /\
     shape (ma_data est) = [1%nat; 1%nat]).
Proof.
  split; eexists _, _, _; (split; [reflexivity |]).
  - exact (proj1 (estimate_shape (quiet_lib 1) (vec 0 1) (vec 1 1) (vec 2 1)
                    (vec 2 1) (vec 2 1) (vec 3 1) (vec 4 1) (vec 2 1) None
                    2 2 2 (h_surf nan) _ _ _) eq_refl).
  - exact (proj2 (estimate_shape (quiet_lib 1) (vec 0 1) (vec 1 1) (vec 2 1)
                    (mat 2 1 1) (mat 5 1 1) (vec 3 1) (vec 4 1) (mat 6 1 1)
                    (Some (mat 7 1 2)) 2 2 2 (h_vol nan nan) _ _ _) eq_refl).
Defined.

Lemma fill_value_finite : isfinite fill_value = true.
Proof. reflexivity. Qed.

(** The tail of both entry points: unpack the reply, reshape, normalize
    the estimate.  A buffer that is already normalized stays so. *)
Lemma tail_keeps_fixed (ext : oalib_call -> heap -> reply * heap)
    (w : ndarray -> ndarray) shp (pm : ndarray) r s est p s' l b :
  s !! l = Some (map (fix_value fill_value) b) ->
  run ext
    (pbind (match r with Returned v => Done v s | Raised e => Fail e s end)
       (fun r0 : pyval =>
          bind (unpack2 r0)
            (fun '(vv, _) =>
               bind (as_array vv)
                 (fun vv0 =>
                    bind (reshape (w vv0) shp)
                      (fun vv1 =>
                         bind (fix_invalid vv1 fill_value)
                           (fun est0 => ret (est0, pm))))))) =
    Returns (est, p) s' ->
  s' !! l = Some (map (fix_value fill_value) b).
Proof.
  intros Hl.
  destruct r as [v | e]; [| discriminate].
  destruct v; try discriminate. unfold bind. cbn [pbind unpack2 ret].
  destruct v1; try discriminate. cbn [pbind as_array ret].
  destruct (reshape_pure (E := oalib_call) (w a) shp s)
    as [(a' & h' & Hre) | (e & Hre)]; rewrite Hre; [| discriminate].
  cbn [pbind]. rewrite fix_invalid_eq. cbn. intros [= _ _ <-].
  apply lookup_fix_heap_fixed; [apply fill_value_finite |].
  unfold reshape in Hre. destruct (negb _); [discriminate |].
  destruct (reshape_view (w a) shp); cbn in Hre; injection Hre as _ <-;
    [done |].
  by apply lookup_app_l_Some.
Qed.

Ltac keep_lookup :=
  repeat first [ apply lookup_reshape_heap | apply lookup_ravel_heap
               | apply lookup_app_l_Some ];
  by apply lookup_fix_heap_eq.

Lemma oasurf_values_fixed ext x y d xx yy pmap weight nx ny h b est p s' :
  h !! buf d = Some b ->
  (forall c s b', s !! buf d = Some b' -> (ext c s).2 !! buf d = Some b') ->
  run ext (oasurf x y d xx yy pmap weight nx ny h) = Returns (est, p) s' ->
  s' !! buf d = Some (map (fix_value fill_value) b).
Proof.
  intros Hb Hext. unfold oasurf, bind. step.
  destruct pmap as [pm |].
  - cbn [ret pbind]. do 5 step. cbn [call pbind run].
    match goal with |- context [ext ?c ?s] =>
      assert (Hk : s !! buf d = Some (map (fix_value fill_value) b))
        by keep_lookup;
      apply (Hext c) in Hk; destruct (ext c s) as [r s1] end.
    cbn in Hk. intros H.
    eapply (tail_keeps_fixed ext (fun a => a)); [exact Hk | exact H].
  - step. destruct (zeros_error _); cbn [pbind]; [discriminate |].
    do 5 step. cbn [call pbind run].
    match goal with |- context [ext ?c ?s] =>
      assert (Hk : s !! buf d = Some (map (fix_value fill_value) b))
        by keep_lookup;
      apply (Hext c) in Hk; destruct (ext c s) as [r s1] end.
    cbn in Hk. intros H.
    eapply (tail_keeps_fixed ext (fun a => a)); [exact Hk | exact H].
Qed.

Lemma oavol_depths_fixed ext x y z v xx yy zz pmap weight nx ny h b est p s' :
  h !! buf z = Some b ->
  (forall c s b', s !! buf z = Some b' -> (ext c s).2 !! buf z = Some b') ->
  run ext (oavol x y z v xx yy zz pmap weight nx ny h) = Returns (est, p) s' ->
  s' !! buf z = Some (map (fix_value fill_value) b).
Proof.
  intros Hb Hext. destruct pmap as [pm |].
  - unfold oavol, bind. step. cbn [ret pbind ma_data]. do 2 step.
    rewrite rows_eq. destruct (no_levels z); [discriminate |].
    rewrite rows_eq. destruct (no_levels v); [discriminate |].
    do 2 step.
    rewrite rows_eq. destruct (no_levels zz); [discriminate |].
    cbn [call pbind run].
    match goal with |- context [ext ?c ?s] =>
      assert (Hk : s !! buf z = Some (map (fix_value fill_value) b))
        by keep_lookup;
      apply (Hext c) in Hk; destruct (ext c s) as [r s1] end.
    cbn in Hk. intros H.
    eapply (tail_keeps_fixed ext transpose); [exact Hk | exact H].
  - destruct (oavol_None_fails x y z v xx yy zz weight nx ny h) as [h' ->].
    discriminate.
Qed.

Lemma quiet_lib_frame n (l : loc) c (s : heap) b' :
  s !! l = Some b' -> (quiet_lib n c s).2 !! l = Some b'.
Proof. apply lookup_app_l_Some. Qed.

(** C4, at two inputs: a NaN in the caller's value array (oasurf) or in
    the caller's depth array (oavol) has been overwritten by the fill
    value when the call returns. *)
Lemma normalization_overwrites_input :
  (exists r s',
     run (quiet_lib 1)
         (oasurf (vec 0 1) (vec 1 1) (vec 2 1) (vec 3 1) (vec 4 1) None 2 2 2
                 (h_surf nan)) = Returns r s' /\
     load (vec 2 1) (h_surf nan) = [nan] /\
     load (vec 2 1) s' = [fill_value]) /\
  (exists r s',
     run (quiet_lib 1)
         (oavol (vec 0 1) (vec 1 1) (mat 2 1 1) (mat 5 1 1) (vec 3 1)
                (vec 4 1) (mat 6 1 1) (Some (mat 7 1 2)) 2 2 2
                (h_vol nan one)) = Returns r s' /\
     load (mat 2 1 1) (h_vol nan one) = [nan] /\
     load (mat 2 1 1) s' = [fill_value]).
Proof. split; eexists _, _; repeat split. Qed.

(** C4, as the code has it: the normalization is done in place
    ([copy=False]).  If the library leaves the buffer alone, then when
    oasurf returns the caller's value array, and when oavol returns the
    caller's depth array, holds the fill value wherever it held a NaN
    or an infinity and its old entries elsewhere; an array of finite
    entries is therefore unchanged. *)
Theorem normalization_in_place ext x y d z v xx yy zz pmap weight nx ny h b
    est p s' :
  (h !! buf d = Some b ->
   (forall c s b', s !! buf d = Some b' -> (ext c s).2 !! buf d = Some b') ->
   run ext (oasurf x y d xx yy pmap weight nx ny h) = Returns (est, p) s' ->
   s' !! buf d = Some (map (fix_value fill_value) b)) /\
  (h !! buf z = Some b ->
   (forall c s b', s !! buf z = Some b' -> (ext c s).2 !! buf z = Some b') ->
   run ext (oavol x y z v xx yy zz pmap weight nx ny h) = Returns (est, p) s' ->
   s' !! buf z = Some (map (fix_value fill_value) b)) /\
  (existsb id (map (fun v => negb (isfinite v)) b) = false ->
   map (fix_value fill_value) b = b).
Proof.
  split; [apply oasurf_values_fixed |].
  split; [apply oavol_depths_fixed | apply fix_value_finite].
Qed.

Lemma normalization_in_place_witness :
  (exists est p s',
     run (quiet_lib 1)
         (oasurf (vec 0 1) (vec 1 1) (vec 2 1) (vec 3 1) (vec 4 1) None 2 2 2
                 (h_surf nan)) = Returns (est, p) s' /\
     s' !! 2%nat = Some [fill_value]) /\
  (exists est p s',
     run (quiet_lib 1)
         (oavol (vec 0 1) (vec 1 1) (mat 2 1 1) (mat 5 1 1) (vec 3 1)
                (vec 4 1) (mat 6 1 1) (Some (mat 7 1 2)) 2 2 2
                (h_vol nan one)) = Returns (est, p) s' /\
     s' !! 2%nat = Some [fill_value]) /\
  map (fix_value fill_value) [one] = [one].
Proof.
  split; [| split].
  - eexists _, _, _. split; [reflexivity |].
    exact (proj1 (normalization_in_place (quiet_lib 1) (vec 0 1) (vec 1 1)
                    (vec 2 1) (vec 2 1) (vec 2 1) (vec 3 1) (vec 4 1)
                    (vec 2 1) None 2 2 2 (h_surf nan) [nan] _ _ _)
             eq_refl (quiet_lib_frame 1 2%nat) eq_refl).
  - eexists _, _, _. split; [reflexivity |].
    exact (proj1 (proj2 (normalization_in_place (quiet_lib 1) (vec 0 1)
                           (vec 1 1) (vec 2 1) (mat 2 1 1) (mat 5 1 1)
                           (vec 3 1) (vec 4 1) (mat 6 1 1)
                           (Some (mat 7 1 2)) 2 2 2 (h_vol nan one) [nan]
                           _ _ _))
             eq_refl (quiet_lib_frame 1 2%nat) eq_refl).
  - exact (proj2 (proj2 (normalization_in_place (quiet_lib 1) (vec 0 1)
                           (vec 1 1) (vec 2 1) (mat 2 1 1) (mat 5 1 1)
                           (vec 3 1) (vec 4 1) (mat 6 1 1)
                           (Some (mat 7 1 2)) 2 2 2 (h_vol one one) [one]
                           (mk_masked (vec 0 1) None) (vec 0 1) []))
             eq_refl).
Defined.

End OaFacts.

(** ** Facts about obsgen.py *)

Module ObsgenFacts.
Import ProgFacts Obsgen.

Section WithWorld.
Context {W : Type}.
Variable f : ext_call -> W -> reply * W.

Lemma super_init_epoch (locals : list (string * pyval)) (self : object)
    (w : world W) g t :
  assoc "grid" locals = Some g ->
  assoc "dt" locals = Some t ->
  assoc "epoch" locals = None ->
  super_init locals self w = Fail (NameError "epoch") w.
Proof.
  intros Hg Ht He. unfold super_init, bind, load_name.
  rewrite Hg. cbn [ret pbind]. rewrite Ht. cbn [ret pbind]. rewrite He.
  reflexivity.
Qed.

Lemma construct_plain cls a (w : world W) :
  cls <> aviso_sla_map ->
  construct cls a w = Fail (NameError "epoch") w.
Proof.
  destruct cls; intros Hc; try contradiction;
    cbn [construct];
    unfold aquarius_sss_init, argo_ctd_init, ostia_sst_map_init,
      seaglider_profile_init, tao_mooring_init;
    eapply super_init_epoch; reflexivity.
Qed.

Lemma construct_aviso a (w : world W) :
  run (lift f) (construct aviso_sla_map a w) =
  if is_None (ssh_mean a)
  then Raises (NameError "epoch") w
  else
    match f (seapy_convolve_mask (ssh_mean a)) (outside w) with
    | (Returned _, o) =>
        Raises (NameError "epoch") (mk_world (stdout w) (warnings w) o)
    | (Raised e, o) => Raises e (mk_world (stdout w) (warnings w) o)
    end.
Proof.
  cbn [construct]. unfold aviso_sla_map_init, bind.
  destruct (is_None (ssh_mean a)); cbn [negb].
  - cbn [ret pbind]. erewrite super_init_epoch by reflexivity. reflexivity.
  - cbn [call pbind run]. unfold lift at 1.
    destruct (f _ _) as [[v | e] o]; cbn [pbind run]; [| reflexivity].
    erewrite super_init_epoch by reflexivity. reflexivity.
Qed.

(** C2, at one input: when [seapy.convolve_mask] raises, the constructor
    of aviso_sla_map ends in that exception, not in the NameError. *)
Lemma reader_init_can_raise_otherwise :
  run (lift failing) (construct aviso_sla_map sample_args w0) =
    Raises (Foreign 0) w0 /\
  Foreign 0 <> NameError "epoch".
Proof. split; [reflexivity | discriminate]. Qed.

(** C2, as the code has it: constructing any of the six readers never
    yields an object.  The exception is the NameError on [epoch] for
    five of the classes, and for aviso_sla_map without a mean field,
    whatever the arguments; for aviso_sla_map with a mean field it is
    the NameError when [seapy.convolve_mask], the one callee in front of
    the base initializer, returns, and the exception of that callee when
    it raises. *)
Theorem reader_init_raises_NameError cls a (w : world W) :
  (forall o w', run (lift f) (construct cls a w) <> Returns o w') /\
  (cls <> aviso_sla_map \/ is_None (ssh_mean a) = true ->
   run (lift f) (construct cls a w) = Raises (NameError "epoch") w) /\
  (cls = aviso_sla_map -> is_None (ssh_mean a) = false ->
   forall r o,
     f (seapy_convolve_mask (ssh_mean a)) (outside w) = (r, o) ->
     run (lift f) (construct cls a w) =
     Raises (match r with Returned _ => NameError "epoch" | Raised e => e end)
            (mk_world (stdout w) (warnings w) o)).
Proof.
  assert (Hcase : cls = aviso_sla_map \/ cls <> aviso_sla_map)
    by (destruct cls; (by left) || (right; discriminate)).
  destruct Hcase as [-> | Hc].
  - rewrite construct_aviso. split; [| split].
    + intros o w'. destruct (is_None _); [discriminate |].
      destruct (f _ _) as [[v | e] o']; discriminate.
    + intros [H | ->]; [contradiction | reflexivity].
    + intros _ -> r o ->. by destruct r.
  - rewrite (construct_plain cls a w Hc). cbn.
    split; [discriminate |]. split; [reflexivity | contradiction].
Qed.




Lemma batch_loop_run self out_files in_files : forall n (w : world W),
  run (lift f) (batch_loop self out_files n in_files w) =
  Returns tt (skip_and_warn f self out_files n in_files w).
Proof.
  induction in_files as [| file rest IH]; intros n w; [reflexivity |].
  cbn [batch_loop skip_and_warn]. unfold bind, try_except.
  rewrite run_pbind, run_ptry. fold (attempt f self out_files n file w).
  destruct (attempt f self out_files n file w) as [[] w1 | e w1].
  - apply IH.
  - cbn [warn run]. apply IH.
Qed.


End WithWorld.

(** The base class, whose initializer is handed [reftime], constructs. *)
Example obsgen_constructs :
  exists o,
    run (lift obliging)
        (construct_obsgen (VOpaque "grid") (VInt 1) (VOpaque "epoch") w0) =
    Returns o w0 /\
    o !! "epoch" = Some (VOpaque "epoch").
Proof. eexists. split; reflexivity. Qed.

(** Two files, every conversion raising: two warnings, no exception. *)
Example batch_files_all_failing :
  run (lift failing)
      (batch_files VNone ["a.nc"; "b.nc"] (OutPattern "out_#.nc") w0) =
  Returns VNone
    (mk_world ["a.nc"; "b.nc"]
       ["WARNING: a.nc cannot be processed.";
        "WARNING: b.nc cannot be processed."] tt).
Proof. reflexivity. Qed.

(** A conversion that yields an observation at day 3234.5 is written to
    the name with the day in place of the hash. *)
Example batch_files_pattern :
  run (lift (fun c (o : list string) =>
               match c with
               | convert_file _ _ =>
                   (Returned (VObs (mk_obs [S754_finite false 6469 (-1)])), o)
               | to_netcdf _ name => (Returned VNone, o ++ [name])
               | _ => (Returned VNone, o)
               end))
      (batch_files VNone ["a.nc"] (OutPattern "out_#.nc")
                   (mk_world [] [] [])) =
  Returns VNone (mk_world ["a.nc"] [] ["out_03234.nc"]).
Proof. reflexivity. Qed.

Lemma reader_init_raises_NameError_witness :
  run (lift obliging) (construct argo_ctd sample_args w0) =
    Raises (NameError "epoch") w0 /\
  run (lift obliging) (construct aviso_sla_map sample_args w0) =
    Raises (NameError "epoch") w0 /\
  run (lift failing) (construct aviso_sla_map sample_args w0) =
    Raises (Foreign 0) w0.
Proof.
  split; [| split].
  - apply (proj1 (proj2 (reader_init_raises_NameError obliging argo_ctd
                           sample_args w0))).
    left. discriminate.
  - exact (proj2 (proj2 (reader_init_raises_NameError obliging aviso_sla_map
                           sample_args w0)) eq_refl eq_refl _ _ eq_refl).
  - exact (proj2 (proj2 (reader_init_raises_NameError failing aviso_sla_map
                           sample_args w0)) eq_refl eq_refl _ _ eq_refl).
Defined.

End ObsgenFacts.

(** ** More facts about oa.py *)

Module OaMoreFacts.
Import ProgFacts NpFacts OaFacts OaMore.

Lemma flat_view_ravel_arr a h : flat_view a (ravel_arr a h).
Proof.
  repeat split. intros Hc. unfold ravel_arr. cbn. by rewrite Hc.
Qed.

Ltac frame_lookup :=
  repeat first [ apply lookup_reshape_heap | apply lookup_ravel_heap
               | apply lookup_app_l_Some ].

(** oasurf, once and for all: either the allocation of the map raises,
    or oa2d is called with flat views, the normalized scales and the
    map, in a state that differs from the caller's only in the
    normalized value array and in new buffers, and the reply is handed
    to [finish]. *)
Lemma oasurf_structure x y d xx yy pmap weight nx ny h :
  (exists e,
     pmap = None /\ zeros_error [Z.of_nat (size xx); weight] = Some e /\
     oasurf x y d xx yy pmap weight nx ny h =
     Fail e (fix_heap d fill_value h)) \/
  exists x' y' d' xx' yy' pm s k,
    oasurf x y d xx yy pmap weight nx ny h =
      Call (oa2d x' y' d' xx' yy' (norm_scales nx ny).1 (norm_scales nx ny).2
                 pm) s k /\
    (forall r s1, k r s1 = finish (fun a => a) (shape xx) pm r s1) /\
    match pmap with
    | Some p => pm = p
    | None =>
        zeros_error [Z.of_nat (size xx); weight] = None /\
        pm = mk_ndarray (List.length h) [size xx; Z.to_nat weight] F_order /\
        s !! List.length h =
          Some (replicate (size xx * Z.to_nat weight) (S754_zero false))
    end /\
    (flat_view x x' /\ flat_view y y' /\ flat_view d d' /\
     flat_view xx xx' /\ flat_view yy yy') /\
    (forall l b, h !! l = Some b -> l <> buf d -> s !! l = Some b) /\
    (forall b, h !! buf d = Some b ->
               s !! buf d = Some (map (fix_value fill_value) b)).
Proof.
  unfold oasurf, bind. step.
  destruct pmap as [p |].
  - right. cbn [ret pbind]. do 5 step. cbn [call pbind ma_data].
    eexists _, _, _, _, _, _, _, _. split; [reflexivity |].
    split; [intros; reflexivity |]. split; [reflexivity |].
    split; [repeat split; apply flat_view_ravel_arr |].
    split.
    + intros l b Hl Hne. frame_lookup.
      etrans; [exact (lookup_fix_heap_ne d fill_value h l Hne) | exact Hl].
    + intros b Hb. frame_lookup. by apply lookup_fix_heap_eq.
  - step. destruct (zeros_error _) as [e |] eqn:Hw; cbn [pbind].
    + left. eauto.
    + right. do 5 step. cbn [call pbind ma_data].
      assert (Hlen : List.length (fix_heap d fill_value h) = List.length h)
        by (unfold fix_heap, store; apply length_insert).
      rewrite Hlen.
      eexists _, _, _, _, _, _, _, _. split; [reflexivity |].
      split; [intros; reflexivity |].
      split.
      { split; [reflexivity |]. split; [reflexivity |].
        do 5 apply lookup_ravel_heap. rewrite <- Hlen.
        rewrite Nat.mul_1_r. apply list_lookup_middle. reflexivity. }
      split; [repeat split; apply flat_view_ravel_arr |].
      split.
      * intros l b Hl Hne. frame_lookup.
        etrans; [exact (lookup_fix_heap_ne d fill_value h l Hne) | exact Hl].
      * intros b Hb. frame_lookup. by apply lookup_fix_heap_eq.
Qed.

Lemma shape_reshape_arr a shp h : shape (reshape_arr a shp h) = shp.
Proof. unfold reshape_arr. by destruct (reshape_view a shp). Qed.

(** A column-major matrix that is not row-major has two axes longer
    than 1; reshaping it to its own shape keeps buffer and strides. *)
Lemma reshape_view_matrix a n m :
  order a = F_order -> shape a = [n; m] -> c_contiguous a = false ->
  n <> 0%nat /\ n <> 1%nat /\ m <> 1%nat /\
  (size a / levels a)%nat = m /\
  reshape_view a [n; m] = Some (Strided [1; n]%nat).
Proof.
  intros Ho Hs Hc. unfold reshape_view. rewrite Hc.
  unfold c_contiguous in Hc. rewrite Ho in Hc.
  unfold old_axes, strides_of, size, levels. unfold size in Hc.
  rewrite Ho, Hs in *. cbn [foldr hd f_strides zip zip_with] in *.
  apply orb_false_iff in Hc as [Hz Hl].
  apply Nat.eqb_neq in Hz.
  assert (Hn0 : n <> 0%nat) by lia.
  assert (Hn1 : n <> 1%nat).
  { intros ->. cbn in Hl. destruct (Nat.eqb_spec m 1); cbn in Hl; discriminate. }
  assert (Hm1 : m <> 1%nat).
  { intros ->. cbn in Hl. destruct (Nat.eqb_spec n 1); cbn in Hl; discriminate. }
  repeat (split; [assumption |]).
  split.
  { rewrite Nat.mul_1_r, Nat.mul_comm. by apply Nat.div_mul. }
  rewrite filter_cons_True by (cbn; by destruct (Nat.eqb_spec n 1)).
  rewrite filter_cons_True by (cbn; by destruct (Nat.eqb_spec m 1)).
  rewrite filter_nil.
  cbn [nocopy List.length Nat.add grow fst snd]. rewrite Nat.eqb_refl.
  cbn [mergeable hd snd group_strides option_map app nocopy List.length
       Nat.add grow fst].
  rewrite Nat.eqb_refl.
  cbn [mergeable hd snd group_strides option_map app map nocopy].
  by rewrite Nat.mul_1_l.
Qed.

Lemma rows_view_reshape_arr a h :
  rows_view a (reshape_arr a [levels a; (size a / levels a)%nat] h).
Proof.
  split; [apply shape_reshape_arr |].
  split; [| split].
  - intros Hc. unfold reshape_arr, reshape_view. by rewrite Hc.
  - intros n m Ho Hs Hc.
    destruct (reshape_view_matrix a n m Ho Hs Hc) as (_ & _ & _ & -> & Hv).
    unfold levels, reshape_arr. rewrite Hs. cbn [hd]. by rewrite Hv.
  - unfold reshape_arr. destruct (reshape_view _ _); cbn [buf order];
      [congruence | reflexivity].
Qed.

(** oavol with a map supplied, once and for all: the first of z, v, zz
    that has no levels stops the call, else oa3d is called on the
    (points, levels) transposes. *)
Lemma oavol_structure x y z v xx yy zz p weight nx ny h :
  match find no_levels [z; v; zz] with
  | Some a =>
      exists s,
        oavol x y z v xx yy zz (Some p) weight nx ny h =
          Fail (no_levels_error a) s /\
        (forall l b, h !! l = Some b -> l <> buf z -> s !! l = Some b) /\
        (forall b, h !! buf z = Some b ->
                   s !! buf z = Some (map (fix_value fill_value) b))
  | None =>
      exists x' y' z' v' xx' yy' zz' s k,
        oavol x y z v xx yy zz (Some p) weight nx ny h =
          Call (oa3d x' y' (transpose z') (transpose v') xx' yy'
                     (transpose zz')
                     (norm_scales nx ny).1 (norm_scales nx ny).2 p) s k /\
        (forall r s1, k r s1 = finish transpose (shape zz) p r s1) /\
        (flat_view x x' /\ flat_view y y' /\
         flat_view xx xx' /\ flat_view yy yy') /\
        (rows_view z z' /\ rows_view v v' /\ rows_view zz zz') /\
        (forall l b, h !! l = Some b -> l <> buf z -> s !! l = Some b) /\
        (forall b, h !! buf z = Some b ->
                   s !! buf z = Some (map (fix_value fill_value) b))
  end.
Proof.
  assert (Hne : forall l b, h !! l = Some b -> l <> buf z ->
                  fix_heap z fill_value h !! l = Some b).
  { intros l b Hl Hn.
    etrans; [exact (lookup_fix_heap_ne z fill_value h l Hn) | exact Hl]. }
  assert (Heq : forall b, h !! buf z = Some b ->
                  fix_heap z fill_value h !! buf z =
                  Some (map (fix_value fill_value) b))
    by (intros b Hb; by apply lookup_fix_heap_eq).
  unfold oavol, bind. step. cbn [ret pbind ma_data]. do 2 step.
  cbn [find]. rewrite rows_eq. unfold no_levels_error.
  destruct (no_levels z).
  { eexists. split; [reflexivity |].
    split; intros; frame_lookup; eauto. }
  rewrite rows_eq. destruct (no_levels v).
  { eexists. split; [reflexivity |].
    split; intros; frame_lookup; eauto. }
  do 2 step. rewrite rows_eq. destruct (no_levels zz).
  { eexists. split; [reflexivity |].
    split; intros; frame_lookup; eauto. }
  cbn [call pbind].
  eexists _, _, _, _, _, _, _, _, _. split; [reflexivity |].
  split; [intros; reflexivity |].
  split; [repeat split; apply flat_view_ravel_arr |].
  split; [split; [| split]; apply rows_view_reshape_arr |].
  split; intros; frame_lookup; eauto.
Qed.

(** *** The tail *)

Lemma load_fix_heap_self (a : ndarray) fv (h : heap) :
  load a (fix_heap a fv h) = map (fix_value fv) (load a h).
Proof.
  unfold load. destruct (h !! buf a) as [b |] eqn:Hb.
  - by rewrite (lookup_fix_heap_eq a fv h b Hb).
  - unfold fix_heap, store. rewrite list_insert_ge by by apply lookup_ge_None.
    by rewrite Hb.
Qed.

Lemma forallb_isfinite_fix fv (l : list spec_float) :
  isfinite fv = true -> forallb isfinite (map (fix_value fv) l) = true.
Proof.
  intros Hfv. induction l as [| v l IH]; [reflexivity |].
  cbn. rewrite IH, andb_true_r. unfold fix_value.
  destruct (isfinite v) eqn:Hv; assumption.
Qed.

Lemma finish_raised ext w shp pm e s :
  run ext (finish w shp pm (Raised e) s) = Raises e s.
Proof. reflexivity. Qed.

Lemma finish_misshapen ext w shp pm vv err s :
  foldr Nat.mul 1%nat shp <> size (w vv) ->
  run ext (finish w shp pm (Returned (VPair (VArray vv) err)) s) =
  Raises (ValueError "cannot reshape array") s.
Proof.
  intros Hne. unfold finish, bind. cbn [pbind unpack2 ret as_array].
  unfold reshape. destruct (Nat.eqb_spec (foldr Nat.mul 1%nat shp) (size (w vv)));
    [contradiction | reflexivity].
Qed.

Lemma finish_returns ext w shp pm r s est p' s' :
  run ext (finish w shp pm r s) = Returns (est, p') s' ->
  p' = pm /\
  exists vv err,
    r = Returned (VPair (VArray vv) err) /\
    foldr Nat.mul 1%nat shp = size (w vv) /\
    est = mk_masked (reshape_arr (w vv) shp s)
                    (fix_mask (reshape_arr (w vv) shp s)
                              (reshape_heap (w vv) shp s)) /\
    s' = fix_heap (reshape_arr (w vv) shp s) fill_value
                  (reshape_heap (w vv) shp s).
Proof.
  unfold finish, bind.
  destruct r as [v | e]; [| discriminate].
  destruct v; try discriminate. cbn [pbind unpack2 ret].
  destruct v1; try discriminate. cbn [pbind as_array ret].
  destruct (Nat.eq_dec (foldr Nat.mul 1%nat shp) (size (w a))) as [Hsz | Hsz].
  - rewrite (reshape_eq _ _ _ Hsz). cbn [pbind]. rewrite fix_invalid_eq.
    cbn. intros [= <- <- <-]. split; [reflexivity |]. eauto 10.
  - unfold reshape.
    destruct (Nat.eqb_spec (foldr Nat.mul 1%nat shp) (size (w a)));
      [contradiction | discriminate].
Qed.

(** *** Runs of the two entry points *)

Lemma oasurf_run ext x y d xx yy pmap weight nx ny h :
  (exists e,
     pmap = None /\ zeros_error [Z.of_nat (size xx); weight] = Some e /\
     first_call (oasurf x y d xx yy pmap weight nx ny h) = None /\
     run ext (oasurf x y d xx yy pmap weight nx ny h) =
     Raises e (fix_heap d fill_value h)) \/
  exists c s pm,
    first_call (oasurf x y d xx yy pmap weight nx ny h) = Some (c, s) /\
    pm = match pmap with
         | Some p => p
         | None => mk_ndarray (List.length h) [size xx; Z.to_nat weight]
                     F_order
         end /\
    run ext (oasurf x y d xx yy pmap weight nx ny h) =
    run ext (finish (fun a => a) (shape xx) pm (ext c s).1 (ext c s).2).
Proof.
  destruct (oasurf_structure x y d xx yy pmap weight nx ny h)
    as [(e & Hp & Hw & E)
       | (x' & y' & d' & xx' & yy' & pm & s & k & E & Hk & Hpm & _)].
  - left. rewrite E. eauto.
  - right. rewrite E. cbn [first_call run].
    eexists _, _, pm. split; [reflexivity |]. split.
    + destruct pmap; [exact Hpm | by destruct Hpm as (_ & -> & _)].
    + destruct (ext _ _) as [r s1]. by rewrite Hk.
Qed.

Lemma oavol_run ext x y z v xx yy zz p weight nx ny h :
  (exists a s,
     find no_levels [z; v; zz] = Some a /\
     first_call (oavol x y z v xx yy zz (Some p) weight nx ny h) = None /\
     run ext (oavol x y z v xx yy zz (Some p) weight nx ny h) =
     Raises (no_levels_error a) s) \/
  exists c s,
    first_call (oavol x y z v xx yy zz (Some p) weight nx ny h) = Some (c, s) /\
    run ext (oavol x y z v xx yy zz (Some p) weight nx ny h) =
    run ext (finish transpose (shape zz) p (ext c s).1 (ext c s).2).
Proof.
  pose proof (oavol_structure x y z v xx yy zz p weight nx ny h) as H.
  destruct (find no_levels [z; v; zz]) as [a |].
  - left. destruct H as (s & E & _). rewrite E. eauto.
  - right.
    destruct H as (x' & y' & z' & v' & xx' & yy' & zz' & s & k & E & Hk & _).
    rewrite E. cbn [first_call run]. eexists _, _. split; [reflexivity |].
    destruct (ext _ _) as [r s1]. by rewrite Hk.
Qed.

Lemma size_transpose a : size (transpose a) = size a.
Proof.
  unfold size, transpose. cbn [shape].
  induction (shape a) as [| n l IH]; [reflexivity |].
  cbn [rev foldr]. rewrite foldr_app. cbn [foldr].
  rewrite <- IH. clear IH.
  induction (rev l) as [| m l' IH']; cbn [foldr]; [lia |].
  rewrite IH'. lia.
Qed.

(** X1: The map that comes back is the map that went in: the very array
    supplied, or else the array oasurf allocated, located right after
    the caller's buffers. *)
Theorem returned_map_is_the_map ext x y d z v xx yy zz pmap p weight nx ny h
    est p' s' :
  (run ext (oasurf x y d xx yy pmap weight nx ny h) = Returns (est, p') s' ->
   p' = match pmap with
        | Some p0 => p0
        | None => mk_ndarray (List.length h) [size xx; Z.to_nat weight]
                    F_order
        end) /\
  (run ext (oavol x y z v xx yy zz (Some p) weight nx ny h)
     = Returns (est, p') s' ->
   p' = p).
Proof.
  split.
  - destruct (oasurf_run ext x y d xx yy pmap weight nx ny h)
      as [(e0 & _ & _ & _ & ->) | (c & s & pm & _ & -> & ->)];
      [discriminate |].
    intros H. by apply finish_returns in H as [-> _].
  - destruct (oavol_run ext x y z v xx yy zz p weight nx ny h)
      as [(a & s & _ & _ & ->) | (c & s & _ & ->)]; [discriminate |].
    intros H. by apply finish_returns in H as [-> _].
Qed.

Lemma returned_map_is_the_map_witness :
  (exists est p' s',
     run (quiet_lib 1)
         (oasurf (vec 0 1) (vec 1 1) (vec 2 1) (vec 3 1) (vec 4 1) None 2 2 2
                 (h_surf nan)) = Returns (est, p') s' /\
     p' = mk_ndarray 5 [1; 2]%nat F_order) /\
  (exists est p' s',
     run (quiet_lib 1)
         (oavol (vec 0 1) (vec 1 1) (mat 2 1 1) (mat 5 1 1) (vec 3 1)
                (vec 4 1) (mat 6 1 1) (Some (mat 7 1 2)) 2 2 2
                (h_vol nan nan)) = Returns (est, p') s' /\
     p' = mat 7 1 2).
Proof.
  split; eexists _, _, _; (split; [reflexivity |]).
  - exact (proj1 (returned_map_is_the_map (quiet_lib 1) (vec 0 1)
                    (vec 1 1) (vec 2 1) (vec 2 1) (vec 2 1) (vec 3 1)
                    (vec 4 1) (vec 2 1) None (vec 0 1) 2 2 2
                    (h_surf nan) _ _ _) eq_refl).
  - exact (proj2 (returned_map_is_the_map (quiet_lib 1) (vec 0 1)
                    (vec 1 1) (vec 2 1) (mat 2 1 1) (mat 5 1 1)
                    (vec 3 1) (vec 4 1) (mat 6 1 1) None (mat 7 1 2)
                    2 2 2 (h_vol nan nan) _ _ _) eq_refl).
Defined.

Lemma finish_finite ext w shp pm r s est p' s' :
  run ext (finish w shp pm r s) = Returns (est, p') s' ->
  forallb isfinite (load (ma_data est) s') = true /\
  match ma_mask est with
  | Some m =>
      List.length m = List.length (load (ma_data est) s') /\
      existsb id m = true
  | None => True
  end.
Proof.
  intros H. apply finish_returns in H
    as (_ & vv & err & _ & _ & -> & ->).
  cbn [ma_data ma_mask]. rewrite load_fix_heap_self. split.
  - apply forallb_isfinite_fix. reflexivity.
  - unfold fix_mask. destruct (existsb id _) eqn:Hany; cbn [negb]; [| exact I].
    split; [by rewrite !length_map | exact Hany].
Qed.

(** X2: An estimate that is returned holds finite numbers only: whatever
    NaN or infinity the library produced has become the fill value, and
    the mask, when there is one, has one flag per element and flags at
    least one. *)
Theorem estimate_is_finite ext x y d z v xx yy zz pmap weight nx ny h
    est p' s' :
  run ext (oasurf x y d xx yy pmap weight nx ny h) = Returns (est, p') s' \/
  run ext (oavol x y z v xx yy zz pmap weight nx ny h) = Returns (est, p') s' ->
  forallb isfinite (load (ma_data est) s') = true /\
  match ma_mask est with
  | Some m =>
      List.length m = List.length (load (ma_data est) s') /\
      existsb id m = true
  | None => True
  end.
Proof.
  intros [H | H].
  - destruct (oasurf_run ext x y d xx yy pmap weight nx ny h)
      as [(e0 & _ & _ & _ & E) | (c & s & pm & _ & _ & E)];
      rewrite E in H; [discriminate |].
    by apply finish_finite in H.
  - destruct pmap as [p |].
    + destruct (oavol_run ext x y z v xx yy zz p weight nx ny h)
        as [(a & s & _ & _ & E) | (c & s & _ & E)];
        rewrite E in H; [discriminate |].
      by apply finish_finite in H.
    + destruct (oavol_None_fails x y z v xx yy zz weight nx ny h) as [h' E].
      rewrite E in H. discriminate.
Qed.

Lemma estimate_is_finite_witness :
  exists est p' s',
    run (nan_lib 1)
        (oasurf (vec 0 1) (vec 1 1) (vec 2 1) (vec 3 1) (vec 4 1) None 2 2 2
                (h_surf one)) = Returns (est, p') s' /\
    load (ma_data est) s' = [fill_value] /\
    ma_mask est = Some [true] /\
    forallb isfinite (load (ma_data est) s') = true.
Proof.
  eexists _, _, _. split; [reflexivity |].
  split; [reflexivity |]. split; [reflexivity |].
  exact (proj1 (estimate_is_finite (nan_lib 1) (vec 0 1) (vec 1 1) (vec 2 1)
                  (vec 2 1) (vec 2 1) (vec 3 1) (vec 4 1) (vec 2 1) None
                  2 2 2 (h_surf one) _ _ _ (or_introl eq_refl))).
Defined.

(** X3: An exception raised by the library routine comes out of the entry
    point as it is, with the state the routine left. *)
Theorem library_exception_propagates ext x y d z v xx yy zz pmap p weight
    nx ny h c s e s1 :
  ext c s = (Raised e, s1) ->
  (first_call (oasurf x y d xx yy pmap weight nx ny h) = Some (c, s) ->
   run ext (oasurf x y d xx yy pmap weight nx ny h) = Raises e s1) /\
  (first_call (oavol x y z v xx yy zz (Some p) weight nx ny h) = Some (c, s) ->
   run ext (oavol x y z v xx yy zz (Some p) weight nx ny h) = Raises e s1).
Proof.
  intros He. split; intros Hc.
  - destruct (oasurf_run ext x y d xx yy pmap weight nx ny h)
      as [(e0 & _ & _ & E & _) | (c' & s' & pm & E & _ & ->)];
      rewrite E in Hc; [discriminate |].
    injection Hc as -> ->. by rewrite He.
  - destruct (oavol_run ext x y z v xx yy zz p weight nx ny h)
      as [(a & s' & _ & E & _) | (c' & s' & E & ->)];
      rewrite E in Hc; [discriminate |].
    injection Hc as -> ->. by rewrite He.
Qed.

Lemma library_exception_propagates_witness :
  exists s1,
    run broken_lib
        (oasurf (vec 0 1) (vec 1 1) (vec 2 1) (vec 3 1) (vec 4 1) None 2 2 2
                (h_surf nan)) = Raises (Foreign 7) s1 /\
    s1 !! 2%nat = Some [fill_value].
Proof.
  eexists. split.
  - exact (proj1 (library_exception_propagates broken_lib (vec 0 1) (vec 1 1)
                    (vec 2 1) (vec 2 1) (vec 2 1) (vec 3 1) (vec 4 1)
                    (vec 2 1) None (vec 0 1) 2 2 2 (h_surf nan) _ _ _ _
                    eq_refl) eq_refl).
  - reflexivity.
Defined.

(** X4: A reply whose estimate has not one value per destination element
    is refused: the entry point raises ValueError instead of returning
    an array of another shape. *)
Theorem misshapen_reply_rejected ext x y d z v xx yy zz pmap p weight
    nx ny h c s vv err s1 :
  ext c s = (Returned (VPair (VArray vv) err), s1) ->
  (first_call (oasurf x y d xx yy pmap weight nx ny h) = Some (c, s) ->
   size vv <> size xx ->
   run ext (oasurf x y d xx yy pmap weight nx ny h) =
   Raises (ValueError "cannot reshape array") s1) /\
  (first_call (oavol x y z v xx yy zz (Some p) weight nx ny h) = Some (c, s) ->
   size vv <> size zz ->
   run ext (oavol x y z v xx yy zz (Some p) weight nx ny h) =
   Raises (ValueError "cannot reshape array") s1).
Proof.
  intros He. split; intros Hc Hsz.
  - destruct (oasurf_run ext x y d xx yy pmap weight nx ny h)
      as [(e0 & _ & _ & E & _) | (c' & s' & pm & E & _ & ->)];
      rewrite E in Hc; [discriminate |].
    injection Hc as -> ->. rewrite He. cbn [fst snd].
    apply finish_misshapen. fold (size xx). congruence.
  - destruct (oavol_run ext x y z v xx yy zz p weight nx ny h)
      as [(a & s' & _ & E & _) | (c' & s' & E & ->)];
      rewrite E in Hc; [discriminate |].
    injection Hc as -> ->. rewrite He. cbn [fst snd].
    apply finish_misshapen. fold (size zz). rewrite size_transpose. congruence.
Qed.

Lemma misshapen_reply_rejected_witness :
  exists s1,
    run (quiet_lib 3)
        (oasurf (vec 0 1) (vec 1 1) (vec 2 1) (vec 3 1) (vec 4 1) None 2 2 2
                (h_surf one)) = Raises (ValueError "cannot reshape array") s1.
Proof.
  eexists.
  refine (proj1 (misshapen_reply_rejected (quiet_lib 3) (vec 0 1) (vec 1 1)
                   (vec 2 1) (vec 2 1) (vec 2 1) (vec 3 1) (vec 4 1)
                   (vec 2 1) None (vec 0 1) 2 2 2 (h_surf one) _ _ _ _ _
                   eq_refl) eq_refl _).
  cbn. lia.
Defined.

(** X5: Up to the call of the library, the entry points write to one
    buffer of the caller only: that of the array they normalize, [d] in
    oasurf and [z] in oavol.  Every other buffer reaches the library as
    the caller left it. *)
Theorem facade_writes_one_buffer x y d z v xx yy zz pmap p weight nx ny h
    c s l b :
  h !! l = Some b ->
  (first_call (oasurf x y d xx yy pmap weight nx ny h) = Some (c, s) ->
   l <> buf d -> s !! l = Some b) /\
  (first_call (oavol x y z v xx yy zz (Some p) weight nx ny h) = Some (c, s) ->
   l <> buf z -> s !! l = Some b).
Proof.
  intros Hl. split; intros Hc Hne.
  - destruct (oasurf_structure x y d xx yy pmap weight nx ny h)
      as [(e0 & _ & _ & E)
         | (x' & y' & d' & xx' & yy' & pm & s' & k & E & _ & _
            & _ & Hframe & _)];
      rewrite E in Hc; [discriminate |].
    injection Hc as _ <-. by apply Hframe.
  - pose proof (oavol_structure x y z v xx yy zz p weight nx ny h) as H.
    destruct (find no_levels [z; v; zz]) as [a |].
    + destruct H as (s' & E & _). rewrite E in Hc. discriminate.
    + destruct H as (x' & y' & z' & v' & xx' & yy' & zz' & s' & k & E & _
                     & _ & _ & Hframe & _).
      rewrite E in Hc. injection Hc as _ <-. by apply Hframe.
Qed.

Lemma facade_writes_one_buffer_witness :
  exists c s,
    first_call (oasurf (vec 0 1) (vec 1 1) (vec 2 1) (vec 3 1) (vec 4 1)
                       None 2 2 2 [[nan]; [nan]; [nan]; [nan]; [nan]])
      = Some (c, s) /\
    s !! 0%nat = Some [nan] /\ s !! 2%nat = Some [fill_value].
Proof.
  eexists _, _. split; [reflexivity |]. split; [| reflexivity].
  refine (proj1 (facade_writes_one_buffer (vec 0 1) (vec 1 1) (vec 2 1)
                   (vec 2 1) (vec 2 1) (vec 3 1) (vec 4 1) (vec 2 1) None
                   (vec 0 1) 2 2 2 [[nan]; [nan]; [nan]; [nan]; [nan]]
                   _ _ 0%nat [nan] eq_refl) eq_refl _).
  discriminate.
Defined.

Lemma points_by_levels_transpose a a' :
  rows_view a a' -> points_by_levels a (transpose a').
Proof.
  intros (Hs & Hc & Hf & Hb). unfold points_by_levels, transpose.
  cbn [shape buf order]. rewrite Hs. cbn [rev app].
  split; [reflexivity |]. split; [| split].
  - intros H. destruct (Hc H) as [-> ->]. auto.
  - intros n m Ho Hsa Hca. destruct (Hf n m Ho Hsa Hca) as [-> ->].
    destruct (reshape_view_matrix a n m Ho Hsa Hca)
      as (Hn0 & Hn1 & Hm1 & Hm & _).
    split; [reflexivity |].
    assert (Hsz : size a <> 0%nat).
    { unfold c_contiguous in Hca. rewrite Ho in Hca.
      apply orb_false_iff in Hca as [Hz _]. by apply Nat.eqb_neq in Hz. }
    unfold levels in *. rewrite Hsa in *. cbn [hd] in *. rewrite Hm.
    assert (Hm0 : m <> 0%nat).
    { intros ->. apply Hsz. unfold size. rewrite Hsa. cbn. lia. }
    unfold f_contiguous, transpose, c_contiguous, size.
    cbn [shape order rev app foldr c_match fst snd].
    destruct (Nat.eqb_spec n 1) as [| _]; [contradiction |].
    destruct (Nat.eqb_spec m 1) as [| _]; [contradiction |].
    cbn [fst snd andb]. rewrite Nat.mul_1_l, !Nat.eqb_refl.
    destruct (Nat.eqb_spec n 1) as [| _]; [contradiction |].
    cbn [andb]. rewrite !orb_false_r, orb_true_r.
    split; [reflexivity |]. apply Nat.eqb_neq. nia.
  - intros H. by rewrite (Hb H).
Qed.

(** X7: What oa3d is handed for the depths and the values: the arrays with
    the levels as last axis, (points, levels).  For a row-major array of
    the caller that is a column-major view of the caller's own buffer;
    for a column-major matrix it is a view of the caller's buffer too,
    but a row-major one; any other array is handed over as a
    column-major copy. *)
Theorem oavol_hands_points_by_levels x y z v xx yy zz p weight nx ny h
    x' y' z' v' xx' yy' zz' nx' ny' p' s :
  first_call (oavol x y z v xx yy zz (Some p) weight nx ny h) =
    Some (oa3d x' y' z' v' xx' yy' zz' nx' ny' p', s) ->
  points_by_levels z z' /\ points_by_levels v v' /\
  points_by_levels zz zz' /\
  flat_view x x' /\ flat_view y y' /\ flat_view xx xx' /\ flat_view yy yy'.
Proof.
  intros Hc.
  pose proof (oavol_structure x y z v xx yy zz p weight nx ny h) as H.
  destruct (find no_levels [z; v; zz]) as [a |].
  - destruct H as (s' & E & _). rewrite E in Hc. discriminate.
  - destruct H as (x0 & y0 & z0 & v0 & xx0 & yy0 & zz0 & s' & k & E & _
                   & (Fx & Fy & Fxx & Fyy) & (Rz & Rv & Rzz) & _).
    rewrite E in Hc. cbn [first_call] in Hc.
    injection Hc as <- <- <- <- <- <- <- _ _ _ _.
    repeat match goal with |- _ /\ _ => split end;
      first [assumption | by apply points_by_levels_transpose].
Qed.

Lemma oavol_hands_points_by_levels_witness :
  exists x' y' z' v' xx' yy' zz' nx' ny' p' s,
    first_call
      (oavol (vec 0 2) (vec 1 2) (mat 2 3 2) (mk_ndarray 5 [3; 2]%nat F_order)
             (vec 3 1) (vec 4 1) (mat 6 3 1) (Some (mat 7 1 2)) 10 2 2
             [[one; one]; [one; one]; [one; one; one; one; one; one];
              [one]; [one]; [one; one; one; one; one; one];
              [one; one; one]; [one; one]]) =
      Some (oa3d x' y' z' v' xx' yy' zz' nx' ny' p', s) /\
    (shape z' = [2; 3]%nat /\ order z' = F_order /\ buf z' = 2%nat) /\
    (shape v' = [2; 3]%nat /\ buf v' = 5%nat /\
     c_contiguous v' = true /\ f_contiguous v' = false).
Proof.
  eexists _, _, _, _, _, _, _, _, _, _, _. split; [reflexivity |].
  destruct (oavol_hands_points_by_levels (vec 0 2) (vec 1 2) (mat 2 3 2)
              (mk_ndarray 5 [3; 2]%nat F_order) (vec 3 1) (vec 4 1) (mat 6 3 1)
              (mat 7 1 2) 10 2 2
              [[one; one]; [one; one]; [one; one; one; one; one; one];
               [one]; [one]; [one; one; one; one; one; one];
               [one; one; one]; [one; one]]
              _ _ _ _ _ _ _ _ _ _ _ eq_refl)
    as ((Hs & Hb & _) & (Hs' & _ & Hb' & _) & _).
  split.
  - split; [exact Hs |]. destruct (Hb eq_refl) as [H1 H2]. auto.
  - split; [exact Hs' |]. exact (Hb' 3%nat 2%nat eq_refl eq_refl eq_refl).
Defined.

(** X6: What oa2d is handed: five flat row-major arrays, each on the
    caller's own buffer when the caller's array is in row-major order,
    so that the routine reads the caller's memory, not copies. *)
Theorem oasurf_hands_flat_views x y d xx yy pmap weight nx ny h
    x' y' d' xx' yy' nx' ny' p' s :
  first_call (oasurf x y d xx yy pmap weight nx ny h) =
    Some (oa2d x' y' d' xx' yy' nx' ny' p', s) ->
  flat_view x x' /\ flat_view y y' /\ flat_view d d' /\
  flat_view xx xx' /\ flat_view yy yy'.
Proof.
  intros Hc.
  destruct (oasurf_structure x y d xx yy pmap weight nx ny h)
    as [(e0 & _ & _ & E)
       | (x0 & y0 & d0 & xx0 & yy0 & pm & s' & k & E & _ & _ & Hv & _)];
    rewrite E in Hc; [discriminate |].
  cbn [first_call] in Hc. by injection Hc as <- <- <- <- <- _ _ _ _.
Qed.

Lemma oasurf_hands_flat_views_witness :
  exists x' y' d' xx' yy' nx' ny' p' s,
    first_call (oasurf (mat 0 2 2) (mat 1 2 2) (mat 2 2 2) (vec 3 1) (vec 4 1)
                       None 2 2 2
                       [[one; one; one; one]; [one; one; one; one];
                        [one; nan; one; one]; [one]; [one]]) =
      Some (oa2d x' y' d' xx' yy' nx' ny' p', s) /\
    shape d' = [4%nat] /\ buf d' = 2%nat.
Proof.
  eexists _, _, _, _, _, _, _, _, _. split; [reflexivity |].
  destruct (oasurf_hands_flat_views (mat 0 2 2) (mat 1 2 2) (mat 2 2 2)
              (vec 3 1) (vec 4 1) None 2 2 2
              [[one; one; one; one]; [one; one; one; one];
               [one; nan; one; one]; [one]; [one]]
              _ _ _ _ _ _ _ _ _ eq_refl)
    as (_ & _ & (Hs & _ & Hb) & _).
  split; [exact Hs | exact (Hb eq_refl)].
Defined.

(** X8: With a map supplied, oavol stops at the first of z, v, zz that has
    no levels to split: IndexError for an array without axes, ValueError
    for one whose first extent is 0.  The library is not called, but z
    has already been normalized in place. *)
Theorem oavol_stops_without_levels x y z v xx yy zz p weight nx ny h a :
  find no_levels [z; v; zz] = Some a ->
  exists s,
    oavol x y z v xx yy zz (Some p) weight nx ny h =
      Fail (no_levels_error a) s /\
    (forall b, h !! buf z = Some b ->
               s !! buf z = Some (map (fix_value fill_value) b)).
Proof.
  intros Ha.
  pose proof (oavol_structure x y z v xx yy zz p weight nx ny h) as H.
  rewrite Ha in H. destruct H as (s & E & _ & Hz). eauto.
Qed.

Lemma oavol_stops_without_levels_witness :
  exists s,
    oavol (vec 0 1) (vec 1 1) (mat 2 1 1) (mk_ndarray 5 [] C_order)
          (vec 3 1) (vec 4 1) (mat 6 0 1) (Some (mat 7 1 2)) 10 2 2
          (h_vol nan one) =
    Fail (IndexError "tuple index out of range") s /\
    s !! 2%nat = Some [fill_value].
Proof.
  destruct (oavol_stops_without_levels (vec 0 1) (vec 1 1) (mat 2 1 1)
              (mk_ndarray 5 [] C_order) (vec 3 1) (vec 4 1) (mat 6 0 1)
              (mat 7 1 2) 10 2 2 (h_vol nan one) _ eq_refl)
    as (s & E & Hz).
  exists s. split; [exact E | exact (Hz [nan] eq_refl)].
Defined.

(** X9: Normalizing twice is normalizing once: a second call of oasurf on
    the same value array, with whatever other arguments, leaves that
    array as the first call left it (the library leaving it alone). *)
Theorem renormalizing_changes_nothing ext d
    x y xx yy pmap weight nx ny
    x2 y2 xx2 yy2 pmap2 weight2 nx2 ny2
    h b r1 s1 r2 s2 :
  h !! buf d = Some b ->
  (forall c s b', s !! buf d = Some b' -> (ext c s).2 !! buf d = Some b') ->
  run ext (oasurf x y d xx yy pmap weight nx ny h) = Returns r1 s1 ->
  run ext (oasurf x2 y2 d xx2 yy2 pmap2 weight2 nx2 ny2 s1) = Returns r2 s2 ->
  s2 !! buf d = s1 !! buf d.
Proof.
  intros Hb Hext H1 H2. destruct r1 as [e1 p1], r2 as [e2 p2].
  pose proof (oasurf_values_fixed ext x y d xx yy pmap weight nx ny h b
                e1 p1 s1 Hb Hext H1) as Hs1.
  pose proof (oasurf_values_fixed ext x2 y2 d xx2 yy2 pmap2 weight2 nx2 ny2
                s1 _ e2 p2 s2 Hs1 Hext H2) as Hs2.
  rewrite fix_value_idem in Hs2 by reflexivity. congruence.
Qed.

Lemma renormalizing_changes_nothing_witness :
  exists r1 s1 r2 s2,
    run (quiet_lib 1)
        (oasurf (vec 0 1) (vec 1 1) (vec 2 1) (vec 3 1) (vec 4 1) None 2 2 2
                (h_surf nan)) = Returns r1 s1 /\
    run (quiet_lib 1)
        (oasurf (vec 0 1) (vec 1 1) (vec 2 1) (vec 3 1) (vec 4 1) None 5 0 3
                s1) = Returns r2 s2 /\
    s2 !! 2%nat = s1 !! 2%nat.
Proof.
  eexists _, _, _, _. split; [reflexivity |]. split; [reflexivity |].
  exact (renormalizing_changes_nothing (quiet_lib 1) (vec 2 1)
           (vec 0 1) (vec 1 1) (vec 3 1) (vec 4 1) None 2 2 2
           (vec 0 1) (vec 1 1) (vec 3 1) (vec 4 1) None 5 0 3
           (h_surf nan) [nan] _ _ _ _ eq_refl (quiet_lib_frame 1 2%nat)
           eq_refl eq_refl).
Defined.

(** X10: The reader of AVISO maps calls oasurf without a map for every file:
    each call allocates a new map of 7 columns, one row per
    observation, and hands it to oa2d all zero, with both scales 1,
    provided such a map fits an array.  Without a mean field oasurf is
    not called at all. *)
Theorem aviso_builds_a_map_per_file grid_I grid_J mean obs_x obs_y h :
  56 * Z.max 1 (Z.of_nat (size obs_x)) <= max_intp ->
  (exists x' y' d' xx' yy' s,
     first_call (aviso_mean_at_obs grid_I grid_J (Some mean) obs_x obs_y h) =
       Some (oa2d x' y' d' xx' yy' 1 1
                  (mk_ndarray (List.length h) [size obs_x; 7%nat] F_order),
             s) /\
     s !! List.length h =
       Some (replicate (size obs_x * 7) (S754_zero false))) /\
  aviso_mean_at_obs grid_I grid_J None obs_x obs_y h = Done None h.
Proof.
  intros Hsz. split; [| reflexivity].
  unfold aviso_mean_at_obs, bind.
  destruct (oasurf_structure grid_I grid_J mean obs_x obs_y None 7 1 1 h)
    as [(e & _ & Hw & _) | (x' & y' & d' & xx' & yy' & pm & s & k & E & _
                            & (_ & -> & Hz) & _)].
  - exfalso.
    assert (Hok : zeros_error [Z.of_nat (size obs_x); 7] = None)
      by (apply zeros_accepts; unfold itemsize; lia).
    congruence.
  - rewrite E. cbn [pbind first_call]. eauto 10.
Qed.

Lemma aviso_builds_a_map_per_file_witness :
  exists x' y' d' xx' yy' s,
    first_call (aviso_mean_at_obs (vec 0 1) (vec 1 1) (Some (vec 2 1))
                  (vec 3 1) (vec 4 1) (h_surf one)) =
      Some (oa2d x' y' d' xx' yy' 1 1 (mk_ndarray 5 [1; 7]%nat F_order), s) /\
    s !! 5%nat = Some (replicate 7 (S754_zero false)).
Proof.
  refine (proj1 (aviso_builds_a_map_per_file (vec 0 1) (vec 1 1) (vec 2 1)
                   (vec 3 1) (vec 4 1) (h_surf one) _)).
  vm_compute. discriminate.
Defined.

End OaMoreFacts.

(** ** Facts about the calls of a run *)

Module TraceFacts.
Import Trace.

Section Calls.
Context {E S : Type}.
Variable ext : E -> S -> reply * S.

Lemma calls_pbind {A B} (p : prog E S A) (f : A -> M E S B) :
  calls ext (pbind p f) =
  calls ext p ++
  match run ext p with
  | Returns a s => calls ext (f a s)
  | Raises _ _ => []
  end.
Proof.
  induction p as [a s | e s | c s k IH]; cbn; try reflexivity.
  destruct (ext c s) as [r s']. f_equal. apply IH.
Qed.

Lemma calls_ptry {A} (p : prog E S A) (h : exn -> M E S A) :
  calls ext (ptry p h) =
  calls ext p ++
  match run ext p with
  | Returns _ _ => []
  | Raises e s => calls ext (h e s)
  end.
Proof.
  induction p as [a s | e s | c s k IH]; cbn; try reflexivity.
  destruct (ext c s) as [r s']. f_equal. apply IH.
Qed.



End Calls.

End TraceFacts.

(** ** More facts about obsgen.py *)

Module ObsgenMoreFacts.
Import ProgFacts Trace TraceFacts Obsgen ObsgenFacts ObsgenMore.

Section WithWorld.
Context {W : Type}.
Variable f : ext_call -> W -> reply * W.

(** One attempt converts its file, then writes at most once, under the
    name the position or the pattern gives. *)
Lemma attempt_calls self out_files n file (w : world W) :
  exists rest,
    calls (lift f) (process_file self out_files n file w) =
      convert_file self file :: rest /\
    (rest = [] \/
     exists o name,
       rest = [to_netcdf o name] /\
       match out_files with
       | OutList names => names !! n = Some name
       | OutPattern pattern =>
           exists i, name = sub_hash (format_05d i) pattern
       end).
Proof.
  unfold process_file, bind, print. cbn [pbind calls call].
  destruct (lift f (convert_file self file) _) as [[v | e] w0];
    cbn [pbind calls];
    [| eexists; split; [reflexivity | by left]].
  destruct v; cbn [ret raise calls];
    try (eexists; split; [reflexivity | by left]).
  destruct out_files as [pattern | names].
  - unfold index. destruct (obs_time o !! 0%nat) as [t0 |];
      cbn [ret raise pbind calls];
      [| eexists; split; [reflexivity | by left]].
    unfold py_int.
    destruct t0; cbn [ret raise pbind calls call];
      try (eexists; split; [reflexivity | by left]);
      (eexists; split; [reflexivity |]; right;
       match goal with |- context [lift f ?c ?w1] =>
         destruct (lift f c w1) as [[v1 | e1] w2] end;
       cbn [pbind calls ret];
       eexists _, _; (split; [reflexivity | eauto])).
  - unfold index. destruct (names !! n) as [name |] eqn:Hn;
      cbn [ret raise pbind calls call];
      [| eexists; split; [reflexivity | by left]].
    eexists; split; [reflexivity |]. right.
    match goal with |- context [lift f ?c ?w1] =>
      destruct (lift f c w1) as [[v1 | e1] w2] end;
      cbn [pbind calls ret];
      eexists _, _; (split; [reflexivity | eauto]).
Qed.

Lemma batch_loop_calls_cons self out_files n file rest (w : world W) :
  calls (lift f) (batch_loop self out_files n (file :: rest) w) =
  calls (lift f) (process_file self out_files n file w) ++
  calls (lift f)
    (batch_loop self out_files (S n) rest
       (skip_and_warn f self out_files n [file] w)).
Proof.
  cbn [batch_loop skip_and_warn]. unfold bind, try_except, attempt.
  rewrite calls_pbind, calls_ptry, run_ptry.
  destruct (run (lift f) (process_file self out_files n file w))
    as [[] w1 | e w1]; cbn [warn run calls]; by rewrite ?app_nil_r.
Qed.

Lemma batch_files_calls self in_files out_files (w : world W) :
  calls (lift f) (batch_files self in_files out_files w) =
  calls (lift f) (batch_loop self out_files 0 in_files w).
Proof.
  unfold batch_files, bind. rewrite calls_pbind, batch_loop_run.
  cbn. by rewrite app_nil_r.
Qed.

Lemma conversions_of_loop self out_files in_files : forall n (w : world W),
  omap conversion (calls (lift f) (batch_loop self out_files n in_files w)) =
  map (fun file => (self, file)) in_files.
Proof.
  induction in_files as [| file rest IH]; intros n w; [reflexivity |].
  rewrite batch_loop_calls_cons, omap_app, IH.
  destruct (attempt_calls self out_files n file w)
    as (tl & -> & [-> | (o & name & -> & _)]); reflexivity.
Qed.

(** X11: batch_files converts every input file exactly once, in the order
    given and with the same reader, whichever conversions or writes
    fail on the way. *)
Theorem every_file_is_converted_once self in_files out_files (w : world W) :
  omap conversion (calls (lift f) (batch_files self in_files out_files w)) =
  map (fun file => (self, file)) in_files.
Proof. rewrite batch_files_calls. apply conversions_of_loop. Qed.












Lemma sub_hash_without_hash repl pattern :
  has_hash pattern = false -> sub_hash repl pattern = pattern.
Proof.
  induction pattern as [| c rest IH]; cbn; [reflexivity |].
  destruct (Ascii.eqb c _); cbn; [discriminate |].
  intros H. by rewrite IH.
Qed.

Lemma written_of_pattern_loop self pattern in_files : forall n (w : world W),
  has_hash pattern = false ->
  Forall (fun name => name = pattern)
    (omap written
       (calls (lift f) (batch_loop self (OutPattern pattern) n in_files w))).
Proof.
  induction in_files as [| file rest IH]; intros n w Hp; [constructor |].
  rewrite batch_loop_calls_cons, omap_app. apply Forall_app. split.
  - destruct (attempt_calls self (OutPattern pattern) n file w)
      as (tl & -> & [-> | (o & name & -> & i & ->)]); cbn [omap written].
    + constructor.
    + constructor; [by apply sub_hash_without_hash | constructor].
  - by apply IH.
Qed.

(** X14: An input beyond the end of the list of output names is converted
    but not written: the missing name is one more failure, answered by
    the warning for that file. *)
Theorem missing_output_name_warns self names n file (w : world W) o o' :
  names !! n = None ->
  f (convert_file self file) (outside w) = (Returned (VObs o), o') ->
  run (lift f) (batch_loop self (OutList names) n [file] w) =
    Returns tt (mk_world (stdout w ++ [file])
                  (warnings w ++ [cannot_be_processed file]) o') /\
  calls (lift f) (batch_loop self (OutList names) n [file] w) =
    [convert_file self file].
Proof.
  intros Hn Hf.
  assert (Hrun : run (lift f) (process_file self (OutList names) n file w) =
                 Raises (IndexError "index out of range")
                        (mk_world (stdout w ++ [file]) (warnings w) o')).
  { unfold process_file, bind, print. cbn [pbind call run].
    unfold lift at 1. cbn [outside]. rewrite Hf. cbn [pbind].
    unfold index. rewrite Hn. reflexivity. }
  assert (Hcalls : calls (lift f)
                     (process_file self (OutList names) n file w) =
                   [convert_file self file]).
  { unfold process_file, bind, print. cbn [pbind call calls].
    unfold lift at 1. cbn [outside]. rewrite Hf. cbn [pbind].
    unfold index. rewrite Hn. reflexivity. }
  split.
  - rewrite batch_loop_run. cbn [skip_and_warn]. unfold attempt.
    by rewrite Hrun.
  - rewrite batch_loop_calls_cons, Hcalls. cbn. reflexivity.
Qed.

Lemma base_attempt self out_files n file (w : world W) :
  run (lift (base_class f)) (process_file self out_files n file w) =
    Returns tt (mk_world (stdout w ++ [file]) (warnings w) (outside w)) /\
  calls (lift (base_class f)) (process_file self out_files n file w) =
    [convert_file self file].
Proof. split; reflexivity. Qed.

End WithWorld.

Section BaseClass.
Context {W : Type}.
Variable f : ext_call -> W -> reply * W.

Lemma base_loop self out_files in_files : forall n (w : world W),
  skip_and_warn (base_class f) self out_files n in_files w =
    mk_world (stdout w ++ in_files) (warnings w) (outside w) /\
  calls (lift (base_class f)) (batch_loop self out_files n in_files w) =
    map (convert_file self) in_files.
Proof.
  induction in_files as [| file rest IH]; intros n w.
  - cbn. rewrite app_nil_r. by destruct w.
  - destruct (base_attempt f self out_files n file w) as [Hrun Hcalls].
    rewrite (batch_loop_calls_cons (base_class f)), Hcalls.
    cbn [skip_and_warn]. unfold attempt. rewrite Hrun.
    destruct (IH (S n) (mk_world (stdout w ++ [file]) (warnings w)
                          (outside w))) as [IHw IHc].
    rewrite IHw, IHc. cbn [stdout warnings outside].
    by rewrite <- app_assoc.
Qed.

(** X15: On the base class, whose convert_file is a stub returning None,
    batch_files prints the file names and does nothing else: it writes
    no file, warns about none, and returns None. *)
Theorem base_class_batch_writes_nothing self in_files out_files (w : world W) :
  run (lift (base_class f)) (batch_files self in_files out_files w) =
    Returns VNone
      (mk_world (stdout w ++ in_files) (warnings w) (outside w)) /\
  calls (lift (base_class f)) (batch_files self in_files out_files w) =
    map (convert_file self) in_files.
Proof.
  destruct (base_loop self out_files in_files 0 w) as [Hw Hc].
  split.
  - unfold batch_files, bind.
    rewrite run_pbind, (batch_loop_run (base_class f)), Hw. reflexivity.
  - rewrite (batch_files_calls (base_class f)). exact Hc.
Qed.

End BaseClass.

Lemma missing_output_name_warns_witness :
  run (lift recording)
      (batch_loop VNone (OutList ["a_out.nc"]) 1 ["b.nc"]
         (mk_world ["a.nc"] [] ["a_out.nc"])) =
    Returns tt (mk_world ["a.nc"; "b.nc"]
                  ["WARNING: b.nc cannot be processed."] ["a_out.nc"]) /\
  calls (lift recording)
      (batch_loop VNone (OutList ["a_out.nc"]) 1 ["b.nc"]
         (mk_world ["a.nc"] [] ["a_out.nc"])) =
    [convert_file VNone "b.nc"].
Proof.
  exact (missing_output_name_warns recording VNone ["a_out.nc"] 1 "b.nc"
           (mk_world ["a.nc"] [] ["a_out.nc"]) _ _ eq_refl eq_refl).
Defined.

End ObsgenMoreFacts.

(** ** The names batch_files writes to *)

Module NamingFacts.
Import ProgFacts Trace TraceFacts Np Obsgen ObsgenFacts ObsgenMore
  ObsgenMoreFacts.

Lemma string_length_app (s1 s2 : string) :
  String.length (s1 +:+ s2) = (String.length s1 + String.length s2)%nat.
Proof.
  induction s1 as [| c s1 IH]; [reflexivity |].
  change (S (String.length (s1 +:+ s2)) =
          S (String.length s1 + String.length s2)).
  by rewrite IH.
Qed.

Lemma string_app_inj (r1 r2 t1 t2 : string) :
  String.length r1 = String.length r2 ->
  r1 +:+ t1 = r2 +:+ t2 -> r1 = r2.
Proof.
  revert r2. induction r1 as [| c r1 IH]; intros [| c2 r2]; cbn;
    try discriminate; [reflexivity |].
  intros [= Hl] [= -> H]. f_equal. by apply IH.
Qed.

Lemma sub_hash_length_mono r1 r2 pattern :
  (String.length r1 < String.length r2)%nat ->
  (String.length (sub_hash r1 pattern) <=
   String.length (sub_hash r2 pattern))%nat /\
  (has_hash pattern = true ->
   (String.length (sub_hash r1 pattern) <
    String.length (sub_hash r2 pattern))%nat).
Proof.
  intros Hlt. induction pattern as [| c rest [IH1 IH2]]; cbn.
  - split; [lia | discriminate].
  - destruct (Ascii.eqb c _); cbn.
    + rewrite !string_length_app. split; [lia | intros _; lia].
    + split; [lia | intros H; specialize (IH2 H); lia].
Qed.

Lemma sub_hash_inj_same_length r1 r2 pattern :
  String.length r1 = String.length r2 ->
  has_hash pattern = true ->
  sub_hash r1 pattern = sub_hash r2 pattern -> r1 = r2.
Proof.
  intros Hl. induction pattern as [| c rest IH]; cbn; [discriminate |].
  destruct (Ascii.eqb c _); cbn.
  - intros _ H. by eapply string_app_inj.
  - intros Hh [= H]. by apply IH.
Qed.

Lemma sub_hash_inj r1 r2 pattern :
  has_hash pattern = true ->
  sub_hash r1 pattern = sub_hash r2 pattern -> r1 = r2.
Proof.
  intros Hh H.
  assert (Hl : String.length r1 = String.length r2).
  { pose proof (f_equal String.length H) as HL.
    destruct (Nat.lt_trichotomy (String.length r1) (String.length r2))
      as [Hlt | [Heq | Hgt]]; [| exact Heq |].
    - pose proof (proj2 (sub_hash_length_mono r1 r2 pattern Hlt) Hh). lia.
    - pose proof (proj2 (sub_hash_length_mono r2 r1 pattern Hgt) Hh). lia. }
  by eapply sub_hash_inj_same_length.
Qed.

(** *** Decoding the padded day *)

Lemma to_uint_not_Nil n : N.to_uint n <> Decimal.Nil.
Proof.
  destruct n as [| p]; [discriminate |]. cbn.
  intros H. pose proof (DecimalPos.Unsigned.of_to p) as Hp.
  rewrite H in Hp. discriminate.
Qed.

Lemma decimal_value_digits n :
  decimal_value (NilZero.string_of_uint (N.to_uint n)) = Some n.
Proof.
  unfold decimal_value, NilZero.string_of_uint.
  pose proof (to_uint_not_Nil n) as Hn.
  destruct (N.to_uint n) eqn:E; try contradiction;
    rewrite <- E, NilEmpty.usu; cbn; by rewrite DecimalN.Unsigned.of_to.
Qed.

Lemma decimal_value_zero s n :
  decimal_value s = Some n -> decimal_value (String "0" s) = Some n.
Proof.
  unfold decimal_value. cbn.
  destruct (NilEmpty.uint_of_string s) as [d |]; cbn; [| discriminate].
  intros [= <-]. reflexivity.
Qed.

Lemma decimal_value_minus s : decimal_value (String "-" s) = None.
Proof. unfold decimal_value. cbn. by destruct (NilEmpty.uint_of_string s). Qed.

Lemma decimal_value_padded k s n :
  decimal_value s = Some n ->
  decimal_value (String.concat "" (replicate k "0") +:+ s) = Some n.
Proof.
  intros Hs. induction k as [| k IH]; [exact Hs |].
  destruct k as [| k]; cbn in *; by apply decimal_value_zero.
Qed.

Lemma format_05d_decodes i :
  exists body,
    decimal_value body = Some (Z.abs_N i) /\
    format_05d i = if i <? 0 then String "-" body else body.
Proof.
  unfold format_05d.
  destruct (i <? 0); eexists;
    (split; [apply decimal_value_padded, decimal_value_digits | reflexivity]).
Qed.

Lemma format_05d_inj i j : format_05d i = format_05d j -> i = j.
Proof.
  destruct (format_05d_decodes i) as (bi & Hi & ->).
  destruct (format_05d_decodes j) as (bj & Hj & ->).
  destruct (Z.ltb_spec i 0) as [Li | Li], (Z.ltb_spec j 0) as [Lj | Lj];
    intros H.
  - injection H as <-. rewrite Hi in Hj. injection Hj. lia.
  - subst bj. by rewrite decimal_value_minus in Hj.
  - subst bi. by rewrite decimal_value_minus in Hi.
  - subst bj. rewrite Hi in Hj. injection Hj. lia.
Qed.

(** X16: With a ['#'] in the pattern, different start days give different
    file names, whatever the days (negative, or of more than five
    digits) and wherever and however often the ['#'] occurs. *)
Theorem distinct_days_distinct_names pattern i j :
  has_hash pattern = true ->
  i <> j ->
  sub_hash (format_05d i) pattern <> sub_hash (format_05d j) pattern.
Proof.
  intros Hh Hij H. apply Hij, format_05d_inj.
  by eapply sub_hash_inj.
Qed.

Lemma distinct_days_distinct_names_witness :
  sub_hash (format_05d 3234) "out_#.nc" = "out_03234.nc" /\
  sub_hash (format_05d (-3234)) "out_#.nc" = "out_-3234.nc" /\
  sub_hash (format_05d 3234) "out_#.nc" <>
  sub_hash (format_05d (-3234)) "out_#.nc".
Proof.
  split; [reflexivity |]. split; [reflexivity |].
  apply (distinct_days_distinct_names "out_#.nc" 3234 (-3234));
    [reflexivity | lia].
Defined.

Section WithWorld.
Context {W : Type}.
Variable f : ext_call -> W -> reply * W.

Lemma py_int_start_day t (w : world W) :
  isfinite t = true -> py_int t w = Done (start_day t) w.
Proof. destruct t; try discriminate; reflexivity. Qed.

Lemma finite_start_calls self pattern n file (w : world W) o o' t0 :
  f (convert_file self file) (outside w) = (Returned (VObs o), o') ->
  obs_time o !! 0%nat = Some t0 ->
  isfinite t0 = true ->
  calls (lift f) (process_file self (OutPattern pattern) n file w) =
    [convert_file self file;
     to_netcdf o (sub_hash (format_05d (start_day t0)) pattern)].
Proof.
  intros Hf Ht Hfin.
  unfold process_file, bind, print. cbn [pbind call calls].
  unfold lift at 1. cbn [outside]. rewrite Hf. cbn [pbind].
  unfold index. rewrite Ht. cbn [ret pbind].
  rewrite (py_int_start_day t0 _ Hfin). cbn [pbind calls].
  do 2 f_equal.
  match goal with |- context [lift f ?c ?w1] =>
    destruct (lift f c w1) as [[v1 | e1] w2] end; reflexivity.
Qed.

(** X17: Under a pattern, an observation is written to the pattern with the
    integer part of its first time, padded to five digits, in place of
    every ['#']. *)
Theorem pattern_names_the_start_day self pattern n file (w : world W)
    o o' t0 :
  f (convert_file self file) (outside w) = (Returned (VObs o), o') ->
  obs_time o !! 0%nat = Some t0 ->
  isfinite t0 = true ->
  calls (lift f) (process_file self (OutPattern pattern) n file w) =
    [convert_file self file;
     to_netcdf o (sub_hash (format_05d (start_day t0)) pattern)].
Proof. apply finite_start_calls. Qed.

Lemma all_written_to_pattern self pattern in_files : forall n (w : world W),
  has_hash pattern = false ->
  (forall file o, exists ob o' t0,
     f (convert_file self file) o = (Returned (VObs ob), o') /\
     obs_time ob !! 0%nat = Some t0 /\ isfinite t0 = true) ->
  omap written
    (calls (lift f) (batch_loop self (OutPattern pattern) n in_files w)) =
  replicate (List.length in_files) pattern.
Proof.
  induction in_files as [| file rest IH]; intros n w Hp Hobs; [reflexivity |].
  rewrite batch_loop_calls_cons, omap_app, IH by assumption.
  destruct (Hobs file (outside w)) as (ob & o' & t0 & Hf & Ht & Hfin).
  rewrite (finite_start_calls self pattern n file w ob o' t0 Hf Ht Hfin).
  cbn [omap written]. by rewrite sub_hash_without_hash.
Qed.

(** X13: A pattern without ['#'] is used as it is.  Whatever is written is
    written to that one name; and when every conversion yields an
    observation whose first time is a finite number, every input is
    written to it, each file over the one before. *)
Theorem pattern_without_hash_is_one_file self in_files pattern (w : world W) :
  has_hash pattern = false ->
  Forall (fun name => name = pattern)
    (omap written
       (calls (lift f) (batch_files self in_files (OutPattern pattern) w))) /\
  ((forall file o, exists ob o' t0,
      f (convert_file self file) o = (Returned (VObs ob), o') /\
      obs_time ob !! 0%nat = Some t0 /\ isfinite t0 = true) ->
   omap written
     (calls (lift f) (batch_files self in_files (OutPattern pattern) w)) =
   replicate (List.length in_files) pattern).
Proof.
  intros Hp. rewrite batch_files_calls. split.
  - by apply written_of_pattern_loop.
  - intros Hobs. by apply all_written_to_pattern.
Qed.

(** X18: An observation without a usable first time (no time at all, NaN,
    or an infinity) is not written: the failure to name its file is
    answered by the warning for the input. *)
Theorem unusable_start_time_warns self pattern n file (w : world W) o o' :
  f (convert_file self file) (outside w) = (Returned (VObs o), o') ->
  obs_time o !! 0%nat = None \/
  (exists t0, obs_time o !! 0%nat = Some t0 /\ isfinite t0 = false) ->
  run (lift f) (batch_loop self (OutPattern pattern) n [file] w) =
    Returns tt (mk_world (stdout w ++ [file])
                  (warnings w ++ [cannot_be_processed file]) o') /\
  calls (lift f) (batch_loop self (OutPattern pattern) n [file] w) =
    [convert_file self file].
Proof.
  intros Hf Ht.
  assert (Hrun : exists e,
            run (lift f) (process_file self (OutPattern pattern) n file w) =
              Raises e (mk_world (stdout w ++ [file]) (warnings w) o')).
  { unfold process_file, bind, print. cbn [pbind call run].
    unfold lift at 1. cbn [outside]. rewrite Hf. cbn [pbind].
    unfold index.
    destruct Ht as [-> | (t0 & -> & Hfin)]; [eexists; reflexivity |].
    cbn [ret pbind].
    destruct t0; try discriminate; eexists; reflexivity. }
  assert (Hcalls : calls (lift f)
              (process_file self (OutPattern pattern) n file w) =
              [convert_file self file]).
  { unfold process_file, bind, print. cbn [pbind call calls].
    unfold lift at 1. cbn [outside]. rewrite Hf. cbn [pbind].
    unfold index.
    destruct Ht as [-> | (t0 & -> & Hfin)]; [reflexivity |].
    cbn [ret pbind].
    destruct t0; try discriminate; reflexivity. }
  destruct Hrun as (e & Hrun). split.
  - rewrite batch_loop_run. cbn [skip_and_warn]. unfold attempt.
    by rewrite Hrun.
  - rewrite batch_loop_calls_cons, Hcalls. reflexivity.
Qed.

End WithWorld.

Lemma pattern_without_hash_is_one_file_witness :
  omap written
    (calls (lift recording)
       (batch_files VNone ["a.nc"; "b.nc"] (OutPattern "out.nc")
          (mk_world [] [] []))) = ["out.nc"; "out.nc"].
Proof.
  refine (proj2 (pattern_without_hash_is_one_file recording VNone
                   ["a.nc"; "b.nc"] "out.nc" (mk_world [] [] []) eq_refl) _).
  intros file o. eexists _, _, _. repeat split.
Defined.

Lemma pattern_names_the_start_day_witness :
  calls (lift recording)
    (process_file VNone (OutPattern "out_#.nc") 0 "a.nc"
       (mk_world [] [] [])) =
  [convert_file VNone "a.nc";
   to_netcdf (mk_obs [S754_finite false 6469 (-1)]) "out_03234.nc"].
Proof.
  exact (pattern_names_the_start_day recording VNone "out_#.nc" 0 "a.nc"
           (mk_world [] [] []) _ _ _ eq_refl eq_refl eq_refl).
Defined.

Lemma unusable_start_time_warns_witness :
  run (lift (fun c (o : unit) =>
               match c with
               | convert_file _ _ => (Returned (VObs (mk_obs [S754_nan])), o)
               | _ => (Returned VNone, o)
               end))
      (batch_loop VNone (OutPattern "out_#.nc") 0 ["a.nc"] w0) =
  Returns tt (mk_world ["a.nc"] ["WARNING: a.nc cannot be processed."] tt) /\
  calls (lift (fun c (o : unit) =>
               match c with
               | convert_file _ _ => (Returned (VObs (mk_obs [S754_nan])), o)
               | _ => (Returned VNone, o)
               end))
      (batch_loop VNone (OutPattern "out_#.nc") 0 ["a.nc"] w0) =
  [convert_file VNone "a.nc"].
Proof.
  refine (unusable_start_time_warns _ VNone "out_#.nc" 0 "a.nc" w0
            (mk_obs [S754_nan]) tt eq_refl _).
  right. exists S754_nan. split; reflexivity.
Defined.

End NamingFacts.

(** ** Facts about the SeaGlider header *)

Module GliderFacts.
Import Glider.

Lemma sample_agrees : agrees_on_ascii sample_alnum.
Proof.
  intros c Hc. unfold sample_alnum.
  replace (c =? 233)%N with false by (symmetry; apply N.eqb_neq; lia).
  apply orb_false_r.
Qed.

Example findall_glider :
  findall sample_alnum (header_line (text "glider") (text "123")) =
    [(text "glider", text "123")] /\
  findall sample_alnum (text "%start: 10 25 110 12 30 00") =
    [(text "start", text "10 25 110 12 30 00")] /\
  findall sample_alnum (header_line cle (text "1")) = [(cle, text "1")] /\
  findall sample_alnum (text "% comment") = [] /\
  findall sample_alnum (text "12.5,3.0,1.0") = [] /\
  findall sample_alnum [] = [].
Proof. repeat split. Qed.

Section Unicode.
Variable isalnum : N -> bool.

Lemma span_word_key key rest c :
  forallb (is_word isalnum) key = true -> is_word isalnum c = false ->
  span_word isalnum (key ++ c :: rest) = (key, c :: rest).
Proof.
  intros Hk Hc. induction key as [| k0 key IH].
  - cbn [app span_word]. by rewrite Hc.
  - cbn in Hk. apply andb_true_iff in Hk as [Hk0 Hk].
    cbn [app span_word]. rewrite Hk0, (IH Hk). reflexivity.
Qed.

Lemma until_newline_value value :
  forallb no_newline value = true ->
  until_newline (value ++ [newline]) = (value, [newline]).
Proof.
  intros Hv. induction value as [| v0 value IH]; [reflexivity |].
  cbn in Hv. apply andb_true_iff in Hv as [Hv0 Hv].
  cbn [app until_newline].
  unfold no_newline in Hv0. apply negb_true_iff in Hv0.
  rewrite Hv0, (IH Hv). reflexivity.
Qed.

Lemma colon_is_no_word : agrees_on_ascii isalnum -> is_word isalnum colon = false.
Proof. intros H. unfold is_word. by rewrite H. Qed.

Lemma findall_header_line key value :
  agrees_on_ascii isalnum ->
  key <> [] ->
  forallb (is_word isalnum) key = true ->
  forallb no_newline value = true ->
  findall isalnum (header_line key value) = [(key, value)].
Proof.
  intros Ha Hne Hk Hv. unfold header_line, findall.
  rewrite N.eqb_refl.
  rewrite span_word_key by (assumption || by apply colon_is_no_word).
  destruct key as [| k0 key]; [contradiction |].
  rewrite !N.eqb_refl. cbn [andb].
  by rewrite until_newline_value.
Qed.

Lemma read_line_other params line key :
  key_of isalnum line <> Some key ->
  read_line isalnum params line !! key = params !! key.
Proof.
  unfold key_of, read_line.
  destruct (findall isalnum line !! 0%nat) as [[k v] |]; cbn; [| reflexivity].
  intros Hk. apply lookup_insert_ne. congruence.
Qed.

Lemma foldl_read_line_other lines key : forall params,
  Forall (fun line => key_of isalnum line <> Some key) lines ->
  foldl (read_line isalnum) params lines !! key = params !! key.
Proof.
  induction lines as [| line lines IH]; intros params Hl; [reflexivity |].
  inversion Hl as [| ? ? Hline Hrest]; subst. cbn [foldl].
  rewrite (IH _ Hrest). by apply read_line_other.
Qed.

Lemma parse_header_last pre line post key value :
  findall isalnum line !! 0%nat = Some (key, value) ->
  Forall (fun l => key_of isalnum l <> Some key) post ->
  parse_header isalnum (pre ++ line :: post) !! key = Some value.
Proof.
  intros Hline Hpost. unfold parse_header.
  rewrite foldl_app. cbn [foldl].
  rewrite (foldl_read_line_other post key _ Hpost).
  unfold read_line. rewrite Hline. apply lookup_insert_eq.
Qed.

Lemma text_glider_is_word :
  agrees_on_ascii isalnum ->
  forallb (is_word isalnum) (text "glider") = true.
Proof.
  intros Ha. unfold is_word. cbn [text list_ascii_of_string map forallb].
  rewrite !Ha by (vm_compute; reflexivity). reflexivity.
Qed.

(** X19: A line [%key: value] is read back as that key and that value, for
    any word as key, in whatever script, and any value without a
    newline; alone in a header it gives the one-entry dictionary. *)
Theorem header_line_is_read_back key value :
  agrees_on_ascii isalnum ->
  key <> [] ->
  forallb (is_word isalnum) key = true ->
  forallb no_newline value = true ->
  parse_header isalnum [header_line key value] = {[key := value]}.
Proof.
  intros Ha Hne Hk Hv. unfold parse_header. cbn [foldl]. unfold read_line.
  rewrite (findall_header_line key value Ha Hne Hk Hv). cbn.
  by rewrite insert_empty.
Qed.

(** X20: The dictionary holds, for every key, the value of the last header
    line that carries the key, and nothing for a key no line carries;
    lines that are not header lines change nothing. *)
Theorem header_keeps_the_last_value key :
  (forall pre line post value,
     findall isalnum line !! 0%nat = Some (key, value) ->
     Forall (fun l => key_of isalnum l <> Some key) post ->
     parse_header isalnum (pre ++ line :: post) !! key = Some value) /\
  (forall header,
     Forall (fun l => key_of isalnum l <> Some key) header ->
     parse_header isalnum header !! key = None).
Proof.
  split.
  - intros pre line post value. apply parse_header_last.
  - intros header Hh. unfold parse_header.
    by rewrite (foldl_read_line_other header key ∅ Hh).
Qed.

(** X21: The provenance name: ["GLIDER"] when no header line gives a glider
    number, else ["GLIDER_SG"] followed by the number of the last such
    line. *)
Theorem glider_name_of_header :
  agrees_on_ascii isalnum ->
  (forall header,
     Forall (fun l => key_of isalnum l <> Some (text "glider")) header ->
     glider_name (parse_header isalnum header) = text "GLIDER") /\
  (forall pre id post,
     forallb no_newline id = true ->
     Forall (fun l => key_of isalnum l <> Some (text "glider")) post ->
     glider_name
       (parse_header isalnum (pre ++ header_line (text "glider") id :: post)) =
     text "GLIDER_SG" ++ id).
Proof.
  intros Ha. split.
  - intros header Hh. unfold glider_name, parse_header.
    by rewrite (foldl_read_line_other header (text "glider") ∅ Hh).
  - intros pre id post Hid Hpost. unfold glider_name.
    rewrite (parse_header_last pre _ post (text "glider") id);
      [reflexivity | | exact Hpost].
    rewrite findall_header_line;
      [reflexivity | assumption | discriminate
      | by apply text_glider_is_word | assumption].
Qed.

End Unicode.

Lemma header_line_is_read_back_witness :
  parse_header sample_alnum
    [header_line (text "start") (text "10 25 110 12 30 00")] =
    {[text "start" := text "10 25 110 12 30 00"]} /\
  parse_header sample_alnum [header_line cle (text "1")] =
    {[cle := text "1"]}.
Proof.
  split.
  - apply (header_line_is_read_back sample_alnum (text "start")
             (text "10 25 110 12 30 00"));
      [exact sample_agrees | discriminate | reflexivity | reflexivity].
  - apply (header_line_is_read_back sample_alnum cle (text "1"));
      [exact sample_agrees | discriminate | reflexivity | reflexivity].
Defined.

Lemma header_keeps_the_last_value_witness :
  parse_header sample_alnum
    [text "%glider: 12"; text "12.5,3.0"; text "%glider: 34";
     text "% no key"] !! text "glider" = Some (text "34") /\
  parse_header sample_alnum
    [header_line cle (text "1"); text "12.5,3.0"; header_line cle (text "2")]
    !! cle = Some (text "2") /\
  parse_header sample_alnum [text "%glider: 12"; text "12.5,3.0"]
    !! text "start" = None.
Proof.
  split; [| split].
  - refine (proj1 (header_keeps_the_last_value sample_alnum (text "glider"))
              [text "%glider: 12"; text "12.5,3.0"] (text "%glider: 34")
              [text "% no key"] (text "34") eq_refl _).
    repeat constructor. discriminate.
  - refine (proj1 (header_keeps_the_last_value sample_alnum cle)
              [header_line cle (text "1"); text "12.5,3.0"]
              (header_line cle (text "2")) [] (text "2") eq_refl _).
    constructor.
  - refine (proj2 (header_keeps_the_last_value sample_alnum (text "start"))
              [text "%glider: 12"; text "12.5,3.0"] _).
    repeat constructor; discriminate.
Defined.

Lemma glider_name_of_header_witness :
  glider_name (parse_header sample_alnum [text "%start: 10 25 110 12 30 00"]) =
    text "GLIDER" /\
  glider_name
    (parse_header sample_alnum
       ([text "%version: 66"] ++
        header_line (text "glider") (text "123") :: [text "%start: 1"])) =
  text "GLIDER_SG123".
Proof.
  split.
  - apply (proj1 (glider_name_of_header sample_alnum sample_agrees)).
    repeat constructor. discriminate.
  - apply (proj2 (glider_name_of_header sample_alnum sample_agrees));
      [reflexivity |].
    repeat constructor. discriminate.
Defined.

End GliderFacts.
